(** * Director agents: the agent interface and the hook-template agent

    A shallow embedding of
      - backend/spielberg/agents/base.py   (BaseAgent.safe_call)
      - backend/director/agents/hook_template.py (HookTemplateAgent)
    Python code that mutates the session sink, calls external services and
    raises is written in a state-and-exception monad; the external services
    (video database, LLM, session content constructor) are an interface the
    development is parametric in. *)

From Stdlib Require Import String Ascii NArith List.
From stdpp Require Import base option list gmap.

Set Default Proof Using "Type".
Set Warnings "-register-all".
Local Open Scope N_scope.
Local Open Scope list_scope.

(** ** Python values *)

(** A Python [str] is a sequence of Unicode code points. *)
Abbreviation pystr := (list N).

(** ASCII text of the source, as a [str]. *)
Definition lit (s : string) : pystr := map N_of_ascii (list_ascii_of_string s).

(** chr(10) and the double quote. *)
Definition chr10 : pystr := [10].
Definition dquote : pystr := [34].
Definition quoted (s : string) : pystr := dquote ++ lit s ++ dquote.

(** str.join *)
Fixpoint join (sep : pystr) (parts : list pystr) : pystr :=
  match parts with
  | [] => []
  | [p] => p
  | p :: rest => p ++ sep ++ join sep rest
  end.

(** The values json.loads can produce. A float is kept as the 64 bits of
    its IEEE double; a dict keeps its items in insertion order. *)
Inductive pyval : Type :=
| PyNone
| PyBool (b : bool)
| PyInt (z : Z)
| PyFloat (bits : N)
| PyStr (s : pystr)
| PyList (items : list pyval)
| PyDict (items : list (pystr * pyval)).

(** ** Exceptions and results *)

Inductive ExcClass := ExceptionC | KeyErrorC | TypeErrorC | OtherC (name : pystr).

(** Every error of the model is an instance of Python's [Exception];
    [exc_str] is what [str(e)] returns. *)
Record Exception := mkExc { exc_class : ExcClass; exc_str : pystr }.

Inductive outcome (A : Type) : Type :=
| Returns (a : A)
| Raises (e : Exception).
Arguments Returns {A} a.
Arguments Raises {A} e.

(** ** The monad: state passing with exceptions

    A computation takes the state and gives back a result or an exception
    together with the state reached: what was written before a [raise]
    stays written. *)
Definition M (S A : Type) : Type := S -> outcome A * S.

Definition ret {S A} (a : A) : M S A := fun s => (Returns a, s).
Definition raise {S A} (e : Exception) : M S A := fun s => (Raises e, s).
Definition bind {S A B} (m : M S A) (k : A -> M S B) : M S B :=
  fun s => match m s with
           | (Returns a, s') => k a s'
           | (Raises e, s') => (Raises e, s')
           end.
(** try: body / except Exception as e: handler e *)
Definition try_except {S A} (body : M S A) (handler : Exception -> M S A) : M S A :=
  fun s => match body s with
           | (Returns a, s') => (Returns a, s')
           | (Raises e, s') => handler e s'
           end.
Definition lift {S A} (o : outcome A) : M S A := fun s => (o, s).
Definition modify {S} (f : S -> S) : M S unit := fun s => (Returns tt, f s).
Definition gets {S A} (f : S -> A) : M S A := fun s => (Returns (f s), s).

Declare Scope py_scope.
Delimit Scope py_scope with py.
Notation "x <- c ;; k" := (bind c (fun x => k))
  (at level 100, c at next level, k at level 200, right associativity) : py_scope.
Notation "c ;; k" := (bind c (fun _ => k))
  (at level 100, k at level 200, right associativity) : py_scope.

(** ** backend/spielberg/agents/base.py *)

Module Spielberg.

(** class AgentResult *)
Definition SUCCESS : pystr := lit "success".
Definition ERROR : pystr := lit "error".

(** class AgentResponse(BaseModel) *)
Record AgentResponse := mkResponse {
  result : pystr;
  message : pystr;
  data : gmap pystr pyval;
}.

Section BaseAgent.
(** An agent: its name, the state its [__call__] works on, the
    abstract [__call__] itself, and the module's logger. *)
Context {S Args : Type}.
Variable agent_name : pystr.
Variable call : Args -> M S AgentResponse.
Variable logger_exception : pystr -> S -> S.

Definition safe_call (args : Args) : M S AgentResponse :=
  try_except (call args)
    (fun e =>
       (modify (logger_exception
                  (lit "error in " ++ agent_name ++ lit " agent: " ++ exc_str e)) ;;
        ret {| result := ERROR; message := exc_str e; data := ∅ |})%py).
End BaseAgent.

End Spielberg.

(** ** backend/director/agents/hook_template.py *)

Module Director.

(** *** What the agent imports *)

(** Modelled from the spec: director.agents.base is not part of the
    sources at hand. AgentResponse is the result envelope: a status
    (SUCCESS or ERROR), a message, and a data mapping that is empty
    unless given. *)
Inductive AgentStatus := SUCCESS | ERROR.
Record AgentResponse := mkResponse {
  status : AgentStatus;
  message : pystr;
  data : gmap pystr pyval;
}.

(** Modelled from the spec: director.core.session is not part of the
    sources at hand. A content object has mutable text, status and
    status_message; its text is empty until assigned. Of the output
    message the agent appends to the action log and to the content list
    and calls push_update and publish; the specification gives these no
    way to fail, and here they always return. *)
Inductive MsgStatus := progress | success | error.
Record TextContent := mkTextContent {
  tc_agent_name : pystr;
  tc_status : MsgStatus;
  tc_status_message : pystr;
  tc_text : pystr;
}.
Inductive RoleTypes := user | assistant | system.
Record LLMMsg := mkMsg { role : RoleTypes; content : pystr }.
Inductive ResponseFormat := json_object.

(** Modelled from the spec: the LLM reply {status: bool, content: string}. *)
Record LLMResponse := mkLLMResponse { llm_status : bool; llm_content : pystr }.

(** Modelled from the spec: what the video data source hands out. Of a
    scene record the agent reads the description only. *)
Record SceneIndexRef := mkRef { scene_index_id : pystr }.
Record Scene := mkScene { description : pystr }.

(** What the session transport receives on a flush: the action log and
    the content objects as they are at that moment. *)
Record Snapshot := mkSnapshot {
  snap_actions : list pystr;
  snap_content : list TextContent;
}.

Inductive LogLevel := WARNING | EXCEPTION.

(** Everything an invocation does that can be seen from outside, in the
    order it happens. Calls to collaborators are recorded with their
    results. *)
Inductive Event :=
| EvPushUpdate (snap : Snapshot)
| EvPublish (snap : Snapshot)
| EvNewTextContent (r : outcome unit)
| EvVideoDBTool (collection_id : pystr) (r : outcome unit)
| EvGetTranscript (video_id : pystr) (r : outcome pystr)
| EvIndexSpokenWords (video_id : pystr) (r : outcome unit)
| EvListSceneIndex (video_id : pystr) (r : outcome (list SceneIndexRef))
| EvGetSceneIndex (video_id sid : pystr) (r : outcome (list Scene))
| EvIndexScene (video_id : pystr) (r : outcome (option SceneIndexRef))
| EvChatCompletions (messages : list LLMMsg) (fmt : ResponseFormat) (r : outcome LLMResponse)
| EvLog (level : LogLevel) (text : pystr).

(** The external collaborators, each call a transition of their own
    state [W] that returns or raises. Modelled from the spec (section 6):
    the clients themselves are not part of the sources at hand. *)
Record Collaborators (W : Type) := mkCollaborators {
  new_text_content : W -> outcome unit * W;
  new_videodb_tool : pystr -> W -> outcome unit * W;
  get_transcript : pystr -> W -> outcome pystr * W;
  index_spoken_words : pystr -> W -> outcome unit * W;
  list_scene_index : pystr -> W -> outcome (list SceneIndexRef) * W;
  get_scene_index : pystr -> pystr -> W -> outcome (list Scene) * W;
  index_scene : pystr -> W -> outcome (option SceneIndexRef) * W;
  chat_completions : list LLMMsg -> ResponseFormat -> W -> outcome LLMResponse * W;
}.
Arguments new_text_content {W}. Arguments new_videodb_tool {W}.
Arguments get_transcript {W}. Arguments index_spoken_words {W}.
Arguments list_scene_index {W}. Arguments get_scene_index {W}.
Arguments index_scene {W}. Arguments chat_completions {W}.

(** The parts of the Python runtime the agent relies on: the json module,
    [str()] of a value that is not a [str], and the wording of the
    interpreter's TypeErrors. *)
Record Runtime := mkRuntime {
  json_loads : pystr -> outcome pyval;
  json_dumps : list pystr -> pystr;
  py_repr : pyval -> pystr;
  not_subscriptable : pyval -> pystr;
  not_iterable : pyval -> pystr;
}.

(** *** The state an invocation works on *)

Record State {W : Type} := mkState {
  world : W;                          (* the collaborators' own state *)
  heap : list TextContent;            (* content objects, by address *)
  om_actions : list pystr;            (* self.output_message.actions *)
  om_content : list nat;              (* self.output_message.content *)
  local_text_content : option nat;    (* the local text_content of run, once bound *)
  trace : list Event;
}.
Arguments State W : clear implicits.
Arguments mkState {W}.

Section Agent.
Context {W : Type} (co : Collaborators W) (rt : Runtime).
Local Open Scope py_scope.
Abbreviation St := (State W).

Definition snapshot (s : St) : Snapshot :=
  {| snap_actions := om_actions s;
     snap_content := omap (fun a => heap s !! a) (om_content s) |}.

Definition emit (ev : Event) : M St unit :=
  modify (fun s => mkState (world s) (heap s) (om_actions s) (om_content s)
                           (local_text_content s) (trace s ++ [ev])).

(** A call to a collaborator: its state moves, the call is recorded. *)
Definition external {A} (f : W -> outcome A * W) (ev : outcome A -> Event) : M St A :=
  fun s => let (r, w') := f (world s) in
           (r, mkState w' (heap s) (om_actions s) (om_content s)
                       (local_text_content s) (trace s ++ [ev r])).

(** self.output_message.actions.append(a) *)
Definition actions_append (a : pystr) : M St unit :=
  modify (fun s => mkState (world s) (heap s) (om_actions s ++ [a]) (om_content s)
                           (local_text_content s) (trace s)).
(** self.output_message.push_update() *)
Definition push_update : M St unit := fun s => emit (EvPushUpdate (snapshot s)) s.
(** self.output_message.publish() *)
Definition publish : M St unit := fun s => emit (EvPublish (snapshot s)) s.

Definition logger_warning (text : pystr) : M St unit := emit (EvLog WARNING text).
Definition logger_exception (text : pystr) : M St unit := emit (EvLog EXCEPTION text).

(** text_content = TextContent(agent_name=..., status=..., status_message=...) *)
Definition TextContent_new (name : pystr) (st : MsgStatus) (msg : pystr) : M St nat :=
  external (new_text_content co) EvNewTextContent ;;
  a <- gets (fun s => length (heap s)) ;;
  modify (fun s => mkState (world s) (heap s ++ [mkTextContent name st msg []])
                           (om_actions s) (om_content s) (Some a) (trace s)) ;;
  ret a.

(** self.output_message.content.append(obj) *)
Definition content_append (a : nat) : M St unit :=
  modify (fun s => mkState (world s) (heap s) (om_actions s) (om_content s ++ [a])
                           (local_text_content s) (trace s)).

(** obj.field = v, on the object at address a *)
Definition update_object (a : nat) (f : TextContent -> TextContent) : M St unit :=
  modify (fun s => mkState (world s) (alter f a (heap s)) (om_actions s) (om_content s)
                           (local_text_content s) (trace s)).
Definition set_text (v : pystr) (tc : TextContent) : TextContent :=
  mkTextContent (tc_agent_name tc) (tc_status tc) (tc_status_message tc) v.
Definition set_status (v : MsgStatus) (tc : TextContent) : TextContent :=
  mkTextContent (tc_agent_name tc) v (tc_status_message tc) (tc_text tc).
Definition set_status_message (v : pystr) (tc : TextContent) : TextContent :=
  mkTextContent (tc_agent_name tc) (tc_status tc) v (tc_text tc).

(** self.agent_name, set in __init__ *)
Definition agent_name : pystr := lit "hook_template".

(** def _get_transcript(self, video_id) *)
Definition _get_transcript (video_id : pystr) : M St pystr :=
  actions_append (lit "Processing video transcript...") ;;
  push_update ;;
  try_except
    (transcript_text <- external (get_transcript co video_id) (EvGetTranscript video_id) ;;
     ret transcript_text)
    (fun _ =>
       actions_append (lit "Indexing video speech...") ;;
       push_update ;;
       external (index_spoken_words co video_id) (EvIndexSpokenWords video_id) ;;
       external (get_transcript co video_id) (EvGetTranscript video_id)).

(** def _get_scenes(self, video_id); None is [None]. *)
Definition _get_scenes (video_id : pystr) : M St (option (list Scene)) :=
  actions_append (lit "Analyzing video scenes...") ;;
  push_update ;;
  scene_list <- external (list_scene_index co video_id) (EvListSceneIndex video_id) ;;
  match scene_list with
  | first :: _ =>
      let sid := scene_index_id first in
      scenes <- external (get_scene_index co video_id sid) (EvGetSceneIndex video_id sid) ;;
      ret (Some scenes)
  | [] =>
      actions_append (lit "Scene index not found. Creating scene index...") ;;
      push_update ;;
      try_except
        (scene_index <- external (index_scene co video_id) (EvIndexScene video_id) ;;
         match scene_index with
         | Some ix =>
             let sid := scene_index_id ix in
             scenes <- external (get_scene_index co video_id sid)
                                (EvGetSceneIndex video_id sid) ;;
             ret (Some scenes)
         | None =>
             logger_warning (lit "Failed to create scene index") ;;
             ret None
         end)
        (fun e =>
           logger_warning (lit "Error creating scene index: " ++ exc_str e) ;;
           ret None)
  end.

(** *** The LLM prompt (the f-string of run, lines 106-144) *)

(** The text between the replacement fields, line by line. *)
Definition prompt_intro : pystr :=
  chr10 ++
  lit "            You are an expert video editor. Create an engaging hook template by analyzing this content carefully." ++ chr10 ++
  lit "            Focus on capturing specific quotes and insights that will grab attention." ++ chr10 ++
  chr10 ++
  lit "            User's Intent: ".

Definition prompt_analysis : pystr :=
  chr10 ++
  lit "            " ++ chr10 ++
  lit "            Content Analysis:" ++ chr10 ++
  lit "            1. Find the most attention-grabbing quote or insight from the first minute" ++ chr10 ++
  lit "            2. Identify the core message or surprising statement" ++ chr10 ++
  lit "            3. Note the exact visual setting and speaker dynamics" ++ chr10 ++
  lit "            4. Match the actual energy and style of the conversation" ++ chr10 ++
  lit "            " ++ chr10 ++
  lit "            Content to Analyze:" ++ chr10 ++
  lit "            Transcript: ".

Definition prompt_scenes_label : pystr :=
  chr10 ++
  lit "            Scenes: ".

Definition prompt_instructions : pystr :=
  chr10 ++
  lit "            " ++ chr10 ++
  lit "            Create a JSON response with:" ++ chr10 ++
  lit "            {" ++ chr10 ++
  lit "                " ++ quoted "script" ++ lit ": " ++ quoted "Hook script that uses an actual quote or insight from the video" ++ lit "," ++ chr10 ++
  lit "                " ++ quoted "visuals" ++ lit ": [" ++ chr10 ++
  lit "                    " ++ quoted "IMPORTANT: Only describe scenes that are explicitly mentioned in the transcript or scene descriptions." ++ lit "," ++ chr10 ++
  lit "                    " ++ quoted "Do not invent or add scenes that aren't in the source material." ++ lit "," ++ chr10 ++
  lit "                    " ++ quoted "Focus on the podcast studio setting and speaker interactions" ++ chr10 ++
  lit "                ]," ++ chr10 ++
  lit "                " ++ quoted "transitions" ++ lit ": " ++ quoted "Simple, clean transitions that match the professional studio setting" ++ lit "," ++ chr10 ++
  lit "                " ++ quoted "music" ++ lit ": " ++ quoted "Subtle background music that won't overshadow the conversation" ++ lit "," ++ chr10 ++
  lit "                " ++ quoted "sound_effects" ++ lit ": " ++ quoted "Minimal to none - only if absolutely necessary for the studio setting" ++ lit "," ++ chr10 ++
  lit "                " ++ quoted "pacing" ++ lit ": " ++ quoted "Match the natural rhythm of the actual conversation" ++ chr10 ++
  lit "            }" ++ chr10 ++
  chr10 ++
  lit "            IMPORTANT GUIDELINES:" ++ chr10 ++
  lit "            1. Only use visual elements that are explicitly present in the video" ++ chr10 ++
  lit "            2. Avoid imagined or additional scenes not in the source material" ++ chr10 ++
  lit "            3. Keep the focus on the actual studio conversation" ++ chr10 ++
  lit "            4. Minimize unnecessary sound effects" ++ chr10 ++
  lit "            5. Maintain the authentic podcast atmosphere" ++ chr10 ++
  chr10 ++
  lit "            The hook script should incorporate real quotes or insights from the video to make it authentic and engaging." ++ chr10 ++
  lit "            ".

(** transcript[:1000] if transcript else 'No transcript available' *)
Definition transcript_field (transcript : pystr) : pystr :=
  match transcript with
  | [] => lit "No transcript available"
  | _ :: _ => take 1000 transcript
  end.

(** json.dumps([scene['description'] for scene in scenes[:5]])
    if scenes else 'No scenes available' *)
Definition scenes_field (scenes : option (list Scene)) : pystr :=
  match scenes with
  | Some ((_ :: _) as l) => json_dumps rt (map description (take 5 l))
  | Some [] | None => lit "No scenes available"
  end.

Definition llm_prompt (prompt transcript : pystr) (scenes : option (list Scene)) : pystr :=
  prompt_intro ++ prompt ++ prompt_analysis ++ transcript_field transcript
    ++ prompt_scenes_label ++ scenes_field scenes ++ prompt_instructions.

(** *** Rendering (the f-string of run, lines 160-176) *)

(** What an f-string puts for {v}. *)
Definition py_str (v : pyval) : pystr :=
  match v with
  | PyStr s => s
  | _ => py_repr rt v
  end.

Fixpoint dict_get (key : pystr) (items : list (pystr * pyval)) : option pyval :=
  match items with
  | [] => None
  | (k, v) :: rest => if decide (k = key) then Some v else dict_get key rest
  end.

(** v['key'] for a key written in the source *)
Definition py_getitem (v : pyval) (key : string) : outcome pyval :=
  match v with
  | PyDict items =>
      match dict_get (lit key) items with
      | Some x => Returns x
      | None => Raises (mkExc KeyErrorC (lit "'" ++ lit key ++ lit "'"))
      end
  | _ => Raises (mkExc TypeErrorC (not_subscriptable rt v))
  end.

(** for x in v *)
Definition py_iter (v : pyval) : outcome (list pyval) :=
  match v with
  | PyList items => Returns items
  | PyStr s => Returns (map (fun c => PyStr [c]) s)
  | PyDict items => Returns (map (fun kv => PyStr (fst kv)) items)
  | _ => Raises (mkExc TypeErrorC (not_iterable rt v))
  end.

Definition render_template (template_data : pyval) : M St pystr :=
  script <- lift (py_getitem template_data "script") ;;
  visuals <- lift (py_getitem template_data "visuals") ;;
  visuals <- lift (py_iter visuals) ;;
  transitions <- lift (py_getitem template_data "transitions") ;;
  music <- lift (py_getitem template_data "music") ;;
  sound_effects <- lift (py_getitem template_data "sound_effects") ;;
  pacing <- lift (py_getitem template_data "pacing") ;;
  ret (chr10 ++
       lit "Hook Script:" ++ chr10 ++
       dquote ++ py_str script ++ dquote ++ chr10 ++
       chr10 ++
       lit "Visual Elements:" ++ chr10 ++
       join chr10 (map (fun visual => lit "- " ++ py_str visual) visuals) ++ chr10 ++
       chr10 ++
       lit "Transitions:" ++ chr10 ++
       py_str transitions ++ chr10 ++
       chr10 ++
       lit "Audio:" ++ chr10 ++
       lit "- Music: " ++ py_str music ++ chr10 ++
       lit "- Sound Effects: " ++ py_str sound_effects ++ chr10 ++
       chr10 ++
       lit "Pacing:" ++ chr10 ++
       py_str pacing ++ chr10 ++
       lit "            ").

(** *** def run(self, video_id, collection_id, prompt) *)

(** The body of the try. *)
Definition run_body (video_id collection_id prompt : pystr) : M St AgentResponse :=
  text_content <- TextContent_new agent_name progress (lit "Analyzing video content...") ;;
  content_append text_content ;;
  push_update ;;
  external (new_videodb_tool co collection_id) (EvVideoDBTool collection_id) ;;
  transcript <- _get_transcript video_id ;;
  scenes <- _get_scenes video_id ;;
  let llm_prompt := llm_prompt prompt transcript scenes in
  actions_append (lit "Generating hook template...") ;;
  push_update ;;
  llm_response <- external (chat_completions co [mkMsg user llm_prompt] json_object)
                           (EvChatCompletions [mkMsg user llm_prompt] json_object) ;;
  if negb (llm_status llm_response)
  then raise (mkExc ExceptionC (lit "Failed to generate hook template"))
  else
    template_data <- lift (json_loads rt (llm_content llm_response)) ;;
    template <- render_template template_data ;;
    update_object text_content (set_text template) ;;
    update_object text_content (set_status success) ;;
    update_object text_content
      (set_status_message (lit "Hook template generated successfully")) ;;
    publish ;;
    ret {| status := SUCCESS;
           message := lit "Agent " ++ agent_name ++ lit " completed successfully.";
           data := {[ lit "template" := PyStr template ]} |}.

(** except Exception as e: *)
Definition run_handler (e : Exception) : M St AgentResponse :=
  logger_exception (lit "Error in " ++ agent_name) ;;
  bound <- gets local_text_content ;;
  match bound with
  | Some text_content =>
      update_object text_content (set_status error) ;;
      update_object text_content
        (set_status_message (lit "Error generating hook template: " ++ exc_str e)) ;;
      publish
  | None => ret tt
  end ;;
  ret {| status := ERROR;
         message := lit "Agent failed with error: " ++ exc_str e;
         data := ∅ |}.

(** A call starts with no local bound. *)
Definition enter_frame : M St unit :=
  modify (fun s => mkState (world s) (heap s) (om_actions s) (om_content s)
                           None (trace s)).

Definition run (video_id collection_id prompt : pystr) : M St AgentResponse :=
  enter_frame ;;
  try_except (run_body video_id collection_id prompt) run_handler.
End Agent.
End Director.

(** ** Reading a trace *)

Module Trace.
Import Director.

(** What an invocation added to the trace. *)
Definition new_events {W} (s s' : State W) : list Event :=
  drop (length (trace s)) (trace s').

Definition transcript_fetches (tr : list Event) : list (outcome pystr) :=
  omap (fun ev => match ev with EvGetTranscript _ r => Some r | _ => None end) tr.
Definition spoken_word_indexings (tr : list Event) : list (outcome unit) :=
  omap (fun ev => match ev with EvIndexSpokenWords _ r => Some r | _ => None end) tr.
Definition scene_listings (tr : list Event) : list (outcome (list SceneIndexRef)) :=
  omap (fun ev => match ev with EvListSceneIndex _ r => Some r | _ => None end) tr.
Definition scene_creations (tr : list Event) : list (outcome (option SceneIndexRef)) :=
  omap (fun ev => match ev with EvIndexScene _ r => Some r | _ => None end) tr.
Definition scene_fetches (tr : list Event) : list (outcome (list Scene)) :=
  omap (fun ev => match ev with EvGetSceneIndex _ _ r => Some r | _ => None end) tr.
Definition content_constructions (tr : list Event) : list (outcome unit) :=
  omap (fun ev => match ev with EvNewTextContent r => Some r | _ => None end) tr.

(** The chat-completion calls: the messages sent and the reply. *)
Definition chats (tr : list Event) : list (list LLMMsg * outcome LLMResponse) :=
  omap (fun ev => match ev with EvChatCompletions m _ r => Some (m, r) | _ => None end) tr.

(** What reached the session sink: flushes of work in progress, and
    publications. *)
Inductive SinkMessage := Progress (snap : Snapshot) | Terminal (snap : Snapshot).
Definition sink (tr : list Event) : list SinkMessage :=
  omap (fun ev => match ev with
                  | EvPushUpdate snap => Some (Progress snap)
                  | EvPublish snap => Some (Terminal snap)
                  | _ => None
                  end) tr.
Definition terminals (tr : list Event) : list Snapshot :=
  omap (fun ev => match ev with EvPublish snap => Some snap | _ => None end) tr.

(** The agent's own content object is the one it appended last. *)
Definition own_content (snap : Snapshot) : option TextContent := last (snap_content snap).
Definition own_status (snap : Snapshot) : option MsgStatus := tc_status <$> own_content snap.

(** Scene creation that raised or gave an empty result. *)
Definition creation_failed (r : outcome (option SceneIndexRef)) : Prop :=
  match r with
  | Raises _ | Returns None => True
  | Returns (Some _) => False
  end.

(** The transcript the invocation ended up with: the result of its last
    fetch, when that returned. *)
Definition acquired_transcript (tr : list Event) : option pystr :=
  match last (transcript_fetches tr) with
  | Some (Returns t) => Some t
  | _ => None
  end.
(** The scenes it ended up with: the result of its last scene fetch,
    when there was one and it returned. *)
Definition acquired_scenes (tr : list Event) : option (list Scene) :=
  match last (scene_fetches tr) with
  | Some (Returns l) => Some l
  | _ => None
  end.
End Trace.

(** ** Scripted collaborators, for running the agent on examples *)

Module Samples.
Import Director.

(** A scenario fixes what each collaborator answers; the transcript
    fetch answers from a list, one entry per call. *)
Record Scenario := mkScenario {
  sc_text_content : outcome unit;
  sc_videodb : outcome unit;
  sc_transcripts : list (outcome pystr);
  sc_index_spoken_words : outcome unit;
  sc_list_scene_index : outcome (list SceneIndexRef);
  sc_get_scene_index : outcome (list Scene);
  sc_index_scene : outcome (option SceneIndexRef);
  sc_chat : outcome LLMResponse;
}.

Definition unavailable (what : string) : Exception := mkExc (OtherC (lit "VideodbError")) (lit what).

Definition scripted : Collaborators Scenario := {|
  new_text_content := fun w => (sc_text_content w, w);
  new_videodb_tool := fun _ w => (sc_videodb w, w);
  get_transcript := fun _ w =>
    match sc_transcripts w with
    | [] => (Raises (unavailable "no transcript"), w)
    | r :: rest =>
        (r, mkScenario (sc_text_content w) (sc_videodb w) rest (sc_index_spoken_words w)
                       (sc_list_scene_index w) (sc_get_scene_index w) (sc_index_scene w)
                       (sc_chat w))
    end;
  index_spoken_words := fun _ w => (sc_index_spoken_words w, w);
  list_scene_index := fun _ w => (sc_list_scene_index w, w);
  get_scene_index := fun _ _ w => (sc_get_scene_index w, w);
  index_scene := fun _ w => (sc_index_scene w, w);
  chat_completions := fun _ _ w => (sc_chat w, w);
|}.

(** An LLM reply and the object json.loads makes of it. *)
Definition reply_text : pystr :=
  lit "{" ++ quoted "script" ++ lit ": " ++ quoted "Did you know?" ++ lit ", " ++
  quoted "visuals" ++ lit ": [" ++ quoted "Host at the desk" ++ lit ", " ++
  quoted "Guest laughing" ++ lit "], " ++
  quoted "transitions" ++ lit ": " ++ quoted "Hard cut" ++ lit ", " ++
  quoted "music" ++ lit ": " ++ quoted "Soft synth" ++ lit ", " ++
  quoted "sound_effects" ++ lit ": " ++ quoted "None" ++ lit ", " ++
  quoted "pacing" ++ lit ": " ++ quoted "Fast" ++ lit "}".
Definition reply_object : pyval :=
  PyDict [ (lit "script", PyStr (lit "Did you know?"));
           (lit "visuals", PyList [PyStr (lit "Host at the desk"); PyStr (lit "Guest laughing")]);
           (lit "transitions", PyStr (lit "Hard cut"));
           (lit "music", PyStr (lit "Soft synth"));
           (lit "sound_effects", PyStr (lit "None"));
           (lit "pacing", PyStr (lit "Fast")) ].

(** The same with no visuals. *)
Definition bare_reply_text : pystr :=
  lit "{" ++ quoted "script" ++ lit ": " ++ quoted "Hi" ++ lit ", " ++
  quoted "visuals" ++ lit ": [], " ++
  quoted "transitions" ++ lit ": " ++ quoted "Cut" ++ lit ", " ++
  quoted "music" ++ lit ": " ++ quoted "Jazz" ++ lit ", " ++
  quoted "sound_effects" ++ lit ": " ++ quoted "None" ++ lit ", " ++
  quoted "pacing" ++ lit ": " ++ quoted "Slow" ++ lit "}".
Definition bare_reply_object : pyval :=
  PyDict [ (lit "script", PyStr (lit "Hi"));
           (lit "visuals", PyList []);
           (lit "transitions", PyStr (lit "Cut"));
           (lit "music", PyStr (lit "Jazz"));
           (lit "sound_effects", PyStr (lit "None"));
           (lit "pacing", PyStr (lit "Slow")) ].

(** The runtime on the values of the examples: json.loads on the two
    replies above (anything else here is no JSON at all), json.dumps on
    lists of plain printable text, and [str()] of the constants. *)
Definition sample_runtime : Runtime := {|
  json_loads := fun s =>
    if decide (s = reply_text) then Returns reply_object
    else if decide (s = bare_reply_text) then Returns bare_reply_object
    else Raises (mkExc (OtherC (lit "JSONDecodeError"))
                       (lit "Expecting value: line 1 column 1 (char 0)"));
  json_dumps := fun l => lit "[" ++ join (lit ", ") (map (fun s => dquote ++ s ++ dquote) l) ++ lit "]";
  py_repr := fun v =>
    match v with
    | PyNone => lit "None"
    | PyBool true => lit "True"
    | PyBool false => lit "False"
    | _ => lit "<object>"
    end;
  not_subscriptable := fun _ => lit "object is not subscriptable";
  not_iterable := fun _ => lit "object is not iterable";
|}.

Definition scenes3 : list Scene :=
  [mkScene (lit "Two hosts in a studio"); mkScene (lit "Close-up of the guest");
   mkScene (lit "Wide shot")].

(** Everything works; a scene index exists. *)
Definition all_fine : Scenario := {|
  sc_text_content := Returns tt;
  sc_videodb := Returns tt;
  sc_transcripts := [Returns (lit "Welcome back to the show.")];
  sc_index_spoken_words := Returns tt;
  sc_list_scene_index := Returns [mkRef (lit "idx-1")];
  sc_get_scene_index := Returns scenes3;
  sc_index_scene := Returns (Some (mkRef (lit "idx-2")));
  sc_chat := Returns (mkLLMResponse true reply_text);
|}.

Definition with_text_content r (w : Scenario) : Scenario :=
  mkScenario r (sc_videodb w) (sc_transcripts w) (sc_index_spoken_words w)
             (sc_list_scene_index w) (sc_get_scene_index w) (sc_index_scene w) (sc_chat w).
Definition with_transcripts r (w : Scenario) : Scenario :=
  mkScenario (sc_text_content w) (sc_videodb w) r (sc_index_spoken_words w)
             (sc_list_scene_index w) (sc_get_scene_index w) (sc_index_scene w) (sc_chat w).
Definition with_index_spoken_words r (w : Scenario) : Scenario :=
  mkScenario (sc_text_content w) (sc_videodb w) (sc_transcripts w) r
             (sc_list_scene_index w) (sc_get_scene_index w) (sc_index_scene w) (sc_chat w).
Definition with_list_scene_index r (w : Scenario) : Scenario :=
  mkScenario (sc_text_content w) (sc_videodb w) (sc_transcripts w) (sc_index_spoken_words w)
             r (sc_get_scene_index w) (sc_index_scene w) (sc_chat w).
Definition with_index_scene r (w : Scenario) : Scenario :=
  mkScenario (sc_text_content w) (sc_videodb w) (sc_transcripts w) (sc_index_spoken_words w)
             (sc_list_scene_index w) (sc_get_scene_index w) r (sc_chat w).
Definition with_chat r (w : Scenario) : Scenario :=
  mkScenario (sc_text_content w) (sc_videodb w) (sc_transcripts w) (sc_index_spoken_words w)
             (sc_list_scene_index w) (sc_get_scene_index w) (sc_index_scene w) r.

(** The LLM answers with a non-success status. *)
Definition llm_refuses : Scenario :=
  with_chat (Returns (mkLLMResponse false [])) all_fine.
(** Listing the scene indexes raises. *)
Definition listing_fails : Scenario :=
  with_list_scene_index (Raises (unavailable "cannot list scene indexes")) all_fine.
(** No scene index exists and creating one raises. *)
Definition creation_fails : Scenario :=
  with_list_scene_index (Returns [])
    (with_index_scene (Raises (unavailable "scene indexing failed")) all_fine).
(** The same, and then the LLM answers with a non-success status. *)
Definition creation_fails_llm_refuses : Scenario :=
  with_chat (Returns (mkLLMResponse false [])) creation_fails.
(** Constructing the content object raises. *)
Definition no_content : Scenario :=
  with_text_content (Raises (mkExc (OtherC (lit "ValidationError")) (lit "invalid content")))
    all_fine.
(** The transcript is there only after indexing. *)
Definition transcript_after_indexing : Scenario :=
  with_transcripts [Raises (unavailable "no transcript");
                    Returns (lit "Welcome back to the show.")] all_fine.
(** No transcript, and spoken-word indexing raises. *)
Definition indexing_fails : Scenario :=
  with_transcripts [Raises (unavailable "no transcript")]
    (with_index_spoken_words (Raises (unavailable "speech indexing failed")) all_fine).
(** The transcript is not there even after indexing. *)
Definition no_transcript : Scenario :=
  with_transcripts [Raises (unavailable "no transcript");
                    Raises (unavailable "still no transcript")] all_fine.
(** The LLM answers with no visuals. *)
Definition no_visuals : Scenario :=
  with_chat (Returns (mkLLMResponse true bare_reply_text)) all_fine.

(** A fresh session: nothing logged, no content yet. *)
Definition fresh (w : Scenario) : State Scenario := mkState w [] [] [] None [].


(** A session in which text_content is bound to a content object that
    already carries a text. *)
Definition drafted : State Scenario :=
  mkState all_fine [mkTextContent agent_name progress (lit "Analyzing video content...")
                                  (lit "a draft")]
          [] [0%nat] (Some 0%nat) [].

(** An agent of the older interface: it logs to a list, and its call
    fails on demand. *)
Definition toy_call (fail : bool) : M (list pystr) Spielberg.AgentResponse :=
  if fail then raise (mkExc ExceptionC (lit "boom"))
  else ret (Spielberg.mkResponse Spielberg.SUCCESS (lit "done") ∅).
Definition toy_safe_call : bool -> M (list pystr) Spielberg.AgentResponse :=
  Spielberg.safe_call (lit "toy") toy_call (fun text log => log ++ [text]).

(** The invocation run(video_id="v1", collection_id="c1", prompt="punchy")
    on a fresh session, its response and its events. *)
Abbreviation sample_run w :=
  (run scripted sample_runtime (lit "v1") (lit "c1") (lit "punchy") (fresh w)).
Abbreviation response_of w := (fst (sample_run w)).
Abbreviation events_of w := (Trace.new_events (fresh w) (snd (sample_run w))).
End Samples.


(** ** What the two acquisition procedures can do

    Each procedure leaves the content objects and the local of [run]
    alone: it moves the collaborators, appends to the action log and to
    the trace. Its possible courses are listed one by one. *)

Module Behaviour.
Import Director.

Section Acquisition.
Context {W : Type} (co : Collaborators W).
Abbreviation St := (State W).

Definition extend (s : St) (w' : W) (acts : list pystr) (evs : list Event) : St :=
  mkState w' (heap s) (om_actions s ++ acts) (om_content s)
          (local_text_content s) (trace s ++ evs).

(** The same when the action log is not touched either. *)
Definition advance (s : St) (w' : W) (evs : list Event) : St :=
  mkState w' (heap s) (om_actions s) (om_content s)
          (local_text_content s) (trace s ++ evs).

(** The flush seen by the sink once [acts] have been appended. *)
Definition flushed (s : St) (acts : list pystr) : Event :=
  EvPushUpdate (mkSnapshot (om_actions s ++ acts) (snap_content (snapshot s))).

(** The events of transcript acquisition, and of scene acquisition:
    calls of their own kind, and flushes that show the content objects
    as they are in [s]. *)
Definition transcript_event (s : St) (ev : Event) : Prop :=
  match ev with
  | EvPushUpdate snap => snap_content snap = snap_content (snapshot s)
  | EvGetTranscript _ _ | EvIndexSpokenWords _ _ => True
  | _ => False
  end.
Definition scenes_event (s : St) (ev : Event) : Prop :=
  match ev with
  | EvPushUpdate snap => snap_content snap = snap_content (snapshot s)
  | EvListSceneIndex _ _ | EvGetSceneIndex _ _ _ | EvIndexScene _ _ | EvLog _ _ => True
  | _ => False
  end.

Definition processing : pystr := lit "Processing video transcript...".
Definition indexing : pystr := lit "Indexing video speech...".
Definition analyzing : pystr := lit "Analyzing video scenes...".
Definition creating : pystr := lit "Scene index not found. Creating scene index...".

Inductive transcript_behaviour (video_id : pystr) (s : St) : outcome pystr -> St -> Prop :=
| fetched_directly t w1 :
    get_transcript co video_id (world s) = (Returns t, w1) ->
    transcript_behaviour video_id s (Returns t)
      (extend s w1 [processing]
         [flushed s [processing]; EvGetTranscript video_id (Returns t)])
| indexing_raised e1 w1 e2 w2 :
    get_transcript co video_id (world s) = (Raises e1, w1) ->
    index_spoken_words co video_id w1 = (Raises e2, w2) ->
    transcript_behaviour video_id s (Raises e2)
      (extend s w2 [processing; indexing]
         [flushed s [processing]; EvGetTranscript video_id (Raises e1);
          flushed s [processing; indexing]; EvIndexSpokenWords video_id (Raises e2)])
| fetched_again e1 w1 w2 r w3 :
    get_transcript co video_id (world s) = (Raises e1, w1) ->
    index_spoken_words co video_id w1 = (Returns tt, w2) ->
    get_transcript co video_id w2 = (r, w3) ->
    transcript_behaviour video_id s r
      (extend s w3 [processing; indexing]
         [flushed s [processing]; EvGetTranscript video_id (Raises e1);
          flushed s [processing; indexing]; EvIndexSpokenWords video_id (Returns tt);
          EvGetTranscript video_id r]).

Inductive scenes_behaviour (video_id : pystr) (s : St)
  : outcome (option (list Scene)) -> St -> Prop :=
| listing_raised e w1 :
    list_scene_index co video_id (world s) = (Raises e, w1) ->
    scenes_behaviour video_id s (Raises e)
      (extend s w1 [analyzing]
         [flushed s [analyzing]; EvListSceneIndex video_id (Raises e)])
| index_exists first rest w1 r w2 :
    list_scene_index co video_id (world s) = (Returns (first :: rest), w1) ->
    get_scene_index co video_id (scene_index_id first) w1 = (r, w2) ->
    scenes_behaviour video_id s
      (match r with Returns l => Returns (Some l) | Raises e => Raises e end)
      (extend s w2 [analyzing]
         [flushed s [analyzing]; EvListSceneIndex video_id (Returns (first :: rest));
          EvGetSceneIndex video_id (scene_index_id first) r])
| index_created w1 ix w2 l w3 :
    list_scene_index co video_id (world s) = (Returns [], w1) ->
    index_scene co video_id w1 = (Returns (Some ix), w2) ->
    get_scene_index co video_id (scene_index_id ix) w2 = (Returns l, w3) ->
    scenes_behaviour video_id s (Returns (Some l))
      (extend s w3 [analyzing; creating]
         [flushed s [analyzing]; EvListSceneIndex video_id (Returns []);
          flushed s [analyzing; creating]; EvIndexScene video_id (Returns (Some ix));
          EvGetSceneIndex video_id (scene_index_id ix) (Returns l)])
| created_index_unreadable w1 ix w2 e w3 :
    list_scene_index co video_id (world s) = (Returns [], w1) ->
    index_scene co video_id w1 = (Returns (Some ix), w2) ->
    get_scene_index co video_id (scene_index_id ix) w2 = (Raises e, w3) ->
    scenes_behaviour video_id s (Returns None)
      (extend s w3 [analyzing; creating]
         [flushed s [analyzing]; EvListSceneIndex video_id (Returns []);
          flushed s [analyzing; creating]; EvIndexScene video_id (Returns (Some ix));
          EvGetSceneIndex video_id (scene_index_id ix) (Raises e);
          EvLog WARNING (lit "Error creating scene index: " ++ exc_str e)])
| creation_empty w1 w2 :
    list_scene_index co video_id (world s) = (Returns [], w1) ->
    index_scene co video_id w1 = (Returns None, w2) ->
    scenes_behaviour video_id s (Returns None)
      (extend s w2 [analyzing; creating]
         [flushed s [analyzing]; EvListSceneIndex video_id (Returns []);
          flushed s [analyzing; creating]; EvIndexScene video_id (Returns None);
          EvLog WARNING (lit "Failed to create scene index")])
| creation_raised w1 e w2 :
    list_scene_index co video_id (world s) = (Returns [], w1) ->
    index_scene co video_id w1 = (Raises e, w2) ->
    scenes_behaviour video_id s (Returns None)
      (extend s w2 [analyzing; creating]
         [flushed s [analyzing]; EvListSceneIndex video_id (Returns []);
          flushed s [analyzing; creating]; EvIndexScene video_id (Raises e);
          EvLog WARNING (lit "Error creating scene index: " ++ exc_str e)]).
End Acquisition.

(** The courses of the body of [run]. *)
Section Invocation.
Context {W : Type} (co : Collaborators W) (rt : Runtime).
Variables (video_id collection_id prompt : pystr).
Abbreviation St := (State W).

(** The content object as constructed. *)
Definition initial_content : TextContent :=
  mkTextContent agent_name progress (lit "Analyzing video content...") [].

(** The state once the content object is constructed, appended to the
    output message and flushed. *)
Definition started (s : St) (w1 : W) : St :=
  let a := length (heap s) in
  let heap' := heap s ++ [initial_content] in
  let content' := om_content s ++ [a] in
  mkState w1 heap' (om_actions s) content' (Some a)
          (trace s ++ [EvNewTextContent (Returns tt);
                       EvPushUpdate (mkSnapshot (om_actions s)
                                       (omap (fun b => heap' !! b) content'))]).

Inductive prepared (s : St) : St -> Prop :=
| prepared_intro w1 w2 :
    new_text_content co (world s) = (Returns tt, w1) ->
    new_videodb_tool co collection_id w1 = (Returns tt, w2) ->
    prepared s (advance (started s w1) w2 [EvVideoDBTool collection_id (Returns tt)]).

Definition generating : pystr := lit "Generating hook template...".

(** Everything up to the reply of the LLM: the transcript and scenes
    acquired, and what the chat-completion call gave. *)
Inductive asked (s : St)
  : pystr -> option (list Scene) -> outcome LLMResponse -> St -> Prop :=
| asked_intro s2 t s3 sc s4 r w5 :
    prepared s s2 ->
    transcript_behaviour co video_id s2 (Returns t) s3 ->
    scenes_behaviour co video_id s3 (Returns sc) s4 ->
    chat_completions co [mkMsg user (llm_prompt rt prompt t sc)] json_object (world s4)
      = (r, w5) ->
    asked s t sc r
      (extend s4 w5 [generating]
         [flushed s4 [generating];
          EvChatCompletions [mkMsg user (llm_prompt rt prompt t sc)] json_object r]).

Definition generation_failure : Exception :=
  mkExc ExceptionC (lit "Failed to generate hook template").

(** The state after the three assignments to the content object at
    address [a] and the publication. *)
Definition finished (s5 : St) (a : nat) (template : pystr) : St :=
  let heap' :=
    alter (set_status_message (lit "Hook template generated successfully")) a
      (alter (set_status success) a (alter (set_text template) a (heap s5))) in
  mkState (world s5) heap' (om_actions s5) (om_content s5) (local_text_content s5)
          (trace s5 ++ [EvPublish (mkSnapshot (om_actions s5)
                                     (omap (fun b => heap' !! b) (om_content s5)))]).

Definition success_response (template : pystr) : AgentResponse :=
  {| status := SUCCESS;
     message := lit "Agent " ++ agent_name ++ lit " completed successfully.";
     data := {[ lit "template" := PyStr template ]} |}.

(** What follows the reply of the LLM, from the state [s5] it is
    received in; [a] is the address text_content is bound to. *)
Inductive reply_behaviour (a : nat) (s5 : St)
  : outcome LLMResponse -> outcome AgentResponse -> St -> Prop :=
| chat_failed e :
    reply_behaviour a s5 (Raises e) (Raises e) s5
| reply_failed reply :
    llm_status reply = false ->
    reply_behaviour a s5 (Returns reply) (Raises generation_failure) s5
| reply_unparsable reply e :
    llm_status reply = true ->
    json_loads rt (llm_content reply) = Raises e ->
    reply_behaviour a s5 (Returns reply) (Raises e) s5
| reply_unrenderable reply template_data e :
    llm_status reply = true ->
    json_loads rt (llm_content reply) = Returns template_data ->
    render_template rt template_data s5 = (Raises e, s5) ->
    reply_behaviour a s5 (Returns reply) (Raises e) s5
| completed reply template_data template :
    llm_status reply = true ->
    json_loads rt (llm_content reply) = Returns template_data ->
    render_template rt template_data s5 = (Returns template, s5) ->
    reply_behaviour a s5 (Returns reply) (Returns (success_response template))
      (finished s5 a template).

Inductive body_behaviour (s : St) : outcome AgentResponse -> St -> Prop :=
| content_failed e w1 :
    new_text_content co (world s) = (Raises e, w1) ->
    body_behaviour s (Raises e) (advance s w1 [EvNewTextContent (Raises e)])
| tool_failed w1 e w2 :
    new_text_content co (world s) = (Returns tt, w1) ->
    new_videodb_tool co collection_id w1 = (Raises e, w2) ->
    body_behaviour s (Raises e)
      (advance (started s w1) w2 [EvVideoDBTool collection_id (Raises e)])
| transcript_failed s2 e s3 :
    prepared s s2 ->
    transcript_behaviour co video_id s2 (Raises e) s3 ->
    body_behaviour s (Raises e) s3
| scenes_failed s2 t s3 e s4 :
    prepared s s2 ->
    transcript_behaviour co video_id s2 (Returns t) s3 ->
    scenes_behaviour co video_id s3 (Raises e) s4 ->
    body_behaviour s (Raises e) s4
| answered t sc r s5 o s6 :
    asked s t sc r s5 ->
    reply_behaviour (length (heap s)) s5 r o s6 ->
    body_behaviour s o s6.

(** [run] enters with text_content unbound. *)
Definition entered (s : St) : St :=
  mkState (world s) (heap s) (om_actions s) (om_content s) None (trace s).

(** What the except clause leaves behind and returns. *)
Definition failure_response (e : Exception) : AgentResponse :=
  {| status := ERROR;
     message := lit "Agent failed with error: " ++ exc_str e;
     data := ∅ |}.

Definition error_logged : Event := EvLog EXCEPTION (lit "Error in " ++ agent_name).

(** The state after the except clause when text_content is bound to
    address [a]. *)
Definition reported (e : Exception) (a : nat) (s1 : St) : St :=
  let heap' :=
    alter (set_status_message (lit "Error generating hook template: " ++ exc_str e)) a
      (alter (set_status error) a (heap s1)) in
  mkState (world s1) heap' (om_actions s1) (om_content s1) (local_text_content s1)
          (trace s1 ++ [error_logged;
                        EvPublish (mkSnapshot (om_actions s1)
                                     (omap (fun b => heap' !! b) (om_content s1)))]).

(** An event that neither constructs nor publishes content and, when
    it is a flush, shows the content objects as they are in [s]. *)
Definition progress_event (s : St) (ev : Event) : Prop :=
  match ev with
  | EvPushUpdate snap => snap_content snap = snap_content (snapshot s)
  | EvPublish _ | EvNewTextContent _ => False
  | _ => True
  end.

(** The events of the except clause: a log entry, a publication. *)
Definition handler_event (ev : Event) : Prop :=
  match ev with
  | EvLog _ _ | EvPublish _ => True
  | _ => False
  end.

(** What can follow a given reply of the LLM. *)
Definition reply_outcome (r : outcome LLMResponse) (o : outcome AgentResponse) : Prop :=
  exists a s5 s6, reply_behaviour a s5 r o s6.
End Invocation.
End Behaviour.

(** ** The rendered text of section 6 of the specification *)

Module Layout.
(** The layout, line by line, around the lines that list the visuals. *)
Definition layout (script : pystr) (visual_lines : list pystr)
           (transitions music sound_effects pacing : pystr) : pystr :=
  join chr10
    ([lit "Hook Script:";
      dquote ++ script ++ dquote;
      [];
      lit "Visual Elements:"] ++
     visual_lines ++
     [[];
      lit "Transitions:";
      transitions;
      [];
      lit "Audio:";
      lit "- Music: " ++ music;
      lit "- Sound Effects: " ++ sound_effects;
      [];
      lit "Pacing:";
      pacing]).

(** One '- <visual>' line per element of the visuals. *)
Definition bullet_lines (visuals : list pystr) : list pystr :=
  map (fun visual => lit "- " ++ visual) visuals.

(** What the f-string makes of them: joining no lines at all still
    leaves the line the join stands on, empty. *)
Definition joined_lines (visuals : list pystr) : list pystr :=
  match visuals with
  | [] => [[]]
  | _ :: _ => bullet_lines visuals
  end.

(** The text before and after the layout in the f-string: the line
    break after the opening quotes, and the line break and indentation
    before the closing ones. *)
Definition leading : pystr := chr10.
Definition trailing : pystr := chr10 ++ lit "            ".
End Layout.

(** ** The stages of an invocation, for stating what it does in order *)

Module Pipeline.
Import Director Behaviour.

(** The progress notes of [run] and of the two acquisition procedures, in
    the order the code appends them. *)
Definition progress_notes : list pystr :=
  [processing; indexing; analyzing; creating; generating].

(** How many calls of each kind a list of events holds. *)
Record Calls := mkCalls {
  content_objects : nat;
  videodb_tools : nat;
  transcript_calls : nat;
  indexing_calls : nat;
  listing_calls : nat;
  creation_calls : nat;
  scene_calls : nat;
  chat_calls : nat;
  publications : nat;
}.

Definition tool_constructions (tr : list Event) : list (outcome unit) :=
  omap (fun ev => match ev with EvVideoDBTool _ r => Some r | _ => None end) tr.

(** What was written to the log, by level. *)
Definition warnings (tr : list Event) : list pystr :=
  omap (fun ev => match ev with EvLog WARNING text => Some text | _ => None end) tr.
Definition logged_exceptions (tr : list Event) : list pystr :=
  omap (fun ev => match ev with EvLog EXCEPTION text => Some text | _ => None end) tr.

(** The action logs the progress messages of a sink show, in order. *)
Definition flushed_actions (tr : list Event) : list (list pystr) :=
  omap (fun ev => match ev with EvPushUpdate snap => Some (snap_actions snap) | _ => None end)
       tr.

Definition calls (evs : list Event) : Calls :=
  {| content_objects := length (Trace.content_constructions evs);
     videodb_tools := length (tool_constructions evs);
     transcript_calls := length (Trace.transcript_fetches evs);
     indexing_calls := length (Trace.spoken_word_indexings evs);
     listing_calls := length (Trace.scene_listings evs);
     creation_calls := length (Trace.scene_creations evs);
     scene_calls := length (Trace.scene_fetches evs);
     chat_calls := length (Trace.chats evs);
     publications := length (Trace.terminals evs) |}.
End Pipeline.

(** ** The rest of backend/spielberg/agents/base.py *)

Module Describe.
Import Director.

(** bool(v): None, False, zero, and the empty str, list and dict are
    false; a float is zero when its bits are those of 0.0 or of -0.0. *)
Definition py_truthy (v : pyval) : bool :=
  match v with
  | PyNone => false
  | PyBool b => b
  | PyInt z => negb (Z.eqb z 0)
  | PyFloat bits => negb (N.eqb bits 0 || N.eqb bits (2 ^ 63))
  | PyStr s => match s with [] => false | _ :: _ => true end
  | PyList items => match items with [] => false | _ :: _ => true end
  | PyDict items => match items with [] => false | _ :: _ => true end
  end.

(** d.get(key) *)
Definition py_get (items : list (pystr * pyval)) (key : string) : pyval :=
  match dict_get (lit key) items with
  | Some v => v
  | None => PyNone
  end.

Definition inference_failure : Exception :=
  mkExc ExceptionC
    (lit "Failed to infere parameters, please define JSON instead of using this automated util.").

(** def get_parameters(self). [function_json] is what
    FunctionInferrer.infer_from_function_reference(self.__call__)
    .to_json_schema() gives: the items of a dict, or the exception the
    library raises. *)
Definition get_parameters (function_json : outcome (list (pystr * pyval))) : outcome pyval :=
  match function_json with
  | Raises e => Raises e
  | Returns items =>
      let parameters := py_get items "parameters" in
      if negb (py_truthy parameters) then Raises inference_failure
      else Returns parameters
  end.
End Describe.

(** ** Reading a reply and a prompt *)

Module Fields.
Import Director.

(** The keys the f-string of the template reads, in the order it reads
    them. *)
Definition template_fields : list string :=
  ["script"; "visuals"; "transitions"; "music"; "sound_effects"; "pacing"]%string.

(** The values a for loop accepts. *)
Definition py_iterable (v : pyval) : bool :=
  match v with
  | PyList _ | PyStr _ | PyDict _ => true
  | _ => false
  end.

(** What the for loop of the template goes over, as the f-string prints
    it: the elements of a list, the characters of a str, the keys of a
    dict. *)
Definition bullets_of (rt : Runtime) (visuals : pyval) : list pystr :=
  match visuals with
  | PyList l => map (py_str rt) l
  | PyStr text => map (fun c => [c]) text
  | PyDict fields => map fst fields
  | _ => []
  end.

(** The descriptions that reach the prompt. *)
Definition first_descriptions (scenes : option (list Scene)) : list pystr :=
  match scenes with
  | Some l => map description (take 5 l)
  | None => []
  end.
End Fields.

(** ** More examples *)

Module Cases.
Import Director Samples.

(** The transcript is there only after indexing, and the scene index
    only after creation: every collaborator is called. *)
Definition long_way : Scenario :=
  with_list_scene_index (Returns []) transcript_after_indexing.

(** A parsed reply with no 'music', and one whose 'visuals' is text. *)
Definition reply_without_music : pyval :=
  PyDict [ (lit "script", PyStr (lit "Hi"));
           (lit "visuals", PyList []);
           (lit "transitions", PyStr (lit "Cut")) ].
Definition spelled_fields : list (pystr * pyval) :=
  [ (lit "script", PyStr (lit "Hi"));
    (lit "visuals", PyStr (lit "ab"));
    (lit "transitions", PyStr (lit "Cut"));
    (lit "music", PyStr (lit "Jazz"));
    (lit "sound_effects", PyStr (lit "None"));
    (lit "pacing", PyStr (lit "Slow")) ].

(** The same six fields in another order and among others. *)
Definition shuffled_fields : list (pystr * pyval) :=
  (lit "title", PyStr (lit "Draft")) :: rev spelled_fields ++ [(lit "notes", PyNone)].

(** Transcripts of 1001 characters that differ in the last one. *)
Definition long_transcript (ending : pystr) : pystr := replicate 1000 97 ++ ending.

(** Six scenes, and six that differ in the sixth. *)
Definition six_scenes : list Scene := scenes3 ++ scenes3.
Definition other_six_scenes : list Scene := take 5 six_scenes ++ [mkScene (lit "Credits")].

(** An inferred schema with parameters, and one without. *)
Definition inferred_schema : list (pystr * pyval) :=
  [ (lit "name", PyStr (lit "__call__"));
    (lit "parameters", PyDict [(lit "type", PyStr (lit "object"))]) ].
Definition bare_schema : list (pystr * pyval) :=
  [ (lit "name", PyStr (lit "__call__")); (lit "parameters", PyDict []) ].
End Cases.

(** * Proofs *)

Import Director Trace Samples Behaviour Layout.

Lemma snoc_app {A} (l : list A) a k : (l ++ [a]) ++ k = l ++ a :: k.
Proof. by rewrite <- app_assoc. Qed.

Lemma omap_none {A B} (f : A -> option B) (l : list A) :
  Forall (fun x => f x = None) l -> omap f l = [].
Proof. induction 1 as [|x l Hx _ IH]; [done|]. cbn. by rewrite Hx. Qed.

Lemma omap_singleton {A B} (f : A -> option B) (a : A) :
  omap f [a] = match f a with Some y => [y] | None => [] end.
Proof. reflexivity. Qed.

Lemma new_events_app {W} (s s' : State W) evs :
  trace s' = trace s ++ evs -> new_events s s' = evs.
Proof. intros H. unfold new_events. rewrite H. apply drop_app_length. Qed.

Section AcquisitionProofs.
Context {W : Type} (co : Collaborators W).
Implicit Types (s : State W) (e : Exception).

Local Arguments lit : simpl never.
Local Arguments app : simpl never.
Local Arguments omap : simpl never.

Ltac unfold_acquisition :=
  unfold _get_transcript, _get_scenes, push_update, logger_warning, actions_append,
    emit, external, try_except, bind, ret, raise, modify.

Ltac conclude H :=
  let H' := fresh in
  pose proof H as H';
  unfold extend, flushed, snapshot, processing, indexing, analyzing, creating in H' |- *;
  cbn in H' |- *; rewrite ?snoc_app; exact H'.

Lemma _get_transcript_behaves video_id s :
  transcript_behaviour co video_id s (fst (_get_transcript co video_id s))
                       (snd (_get_transcript co video_id s)).
Proof.
  unfold_acquisition. cbn.
  destruct (get_transcript co video_id (world s)) as [[t|e1] w1] eqn:E1; cbn.
  - conclude (fetched_directly co video_id s t w1 E1).
  - destruct (index_spoken_words co video_id w1) as [[[]|e2] w2] eqn:E2; cbn.
    + destruct (get_transcript co video_id w2) as [r w3] eqn:E3; cbn.
      conclude (fetched_again co video_id s e1 w1 w2 r w3 E1 E2 E3).
    + conclude (indexing_raised co video_id s e1 w1 e2 w2 E1 E2).
Qed.

Lemma _get_scenes_behaves video_id s :
  scenes_behaviour co video_id s (fst (_get_scenes co video_id s))
                   (snd (_get_scenes co video_id s)).
Proof.
  unfold_acquisition. cbn.
  destruct (list_scene_index co video_id (world s)) as [[[|first rest]|e] w1] eqn:E1; cbn.
  - destruct (index_scene co video_id w1) as [[[ix|]|e] w2] eqn:E2; cbn.
    + destruct (get_scene_index co video_id (scene_index_id ix) w2) as [[l|e] w3] eqn:E3; cbn.
      * conclude (index_created co video_id s w1 ix w2 l w3 E1 E2 E3).
      * conclude (created_index_unreadable co video_id s w1 ix w2 e w3 E1 E2 E3).
    + conclude (creation_empty co video_id s w1 w2 E1 E2).
    + conclude (creation_raised co video_id s w1 e w2 E1 E2).
  - destruct (get_scene_index co video_id (scene_index_id first) w1) as [r w2] eqn:E2.
    pose proof (index_exists co video_id s first rest w1 r w2 E1 E2) as H.
    destruct r; conclude H.
  - conclude (listing_raised co video_id s e w1 E1).
Qed.

Lemma extend_extend s w1 a1 evs1 w2 a2 evs2 :
  extend (extend s w1 a1 evs1) w2 a2 evs2 = extend s w2 (a1 ++ a2) (evs1 ++ evs2).
Proof. unfold extend; cbn. by rewrite <- !app_assoc. Qed.

Lemma extend_advance s w1 evs1 w2 a2 evs2 :
  extend (advance s w1 evs1) w2 a2 evs2 = extend s w2 a2 (evs1 ++ evs2).
Proof. unfold extend, advance; cbn. by rewrite <- !app_assoc. Qed.

Lemma advance_as_extend s w evs : advance s w evs = extend s w [] evs.
Proof. unfold extend, advance. by rewrite app_nil_r. Qed.

Lemma transcript_behaviour_extends video_id s o s' :
  transcript_behaviour co video_id s o s' ->
  exists w acts evs,
    s' = extend s w acts evs /\ Forall (transcript_event s) evs /\
    acquired_transcript evs = match o with Returns t => Some t | Raises _ => None end.
Proof.
  destruct 1; do 3 eexists; (split; [reflexivity|]); split;
    try (repeat constructor; done).
  all: try done.
  all: destruct r; done.
Qed.

Lemma scenes_behaviour_extends video_id s o s' :
  scenes_behaviour co video_id s o s' ->
  exists w acts evs,
    s' = extend s w acts evs /\ Forall (scenes_event s) evs /\
    (forall sc, o = Returns sc -> acquired_scenes evs = sc) /\
    (scene_listings evs = [Returns []] ->
     forall rc, scene_creations evs = [rc] -> creation_failed rc -> o = Returns None).
Proof.
  destruct 1; do 3 eexists; (split; [reflexivity|]); (split; [|split]);
    try (repeat constructor; done).
  all: try (intros ? [= <-]; done).
  all: try (intros _ rc [= <-]; done).
  all: try (intros [=]; done).
  all: try done.
  all: destruct r; intros ? [= <-]; done.
Qed.
End AcquisitionProofs.

Section InvocationProofs.
Context {W : Type} (co : Collaborators W) (rt : Runtime).
Variables (video_id collection_id prompt : pystr).
Implicit Types (s : State W) (e : Exception).

Lemma render_template_pure template_data :
  exists o, forall s, render_template (W:=W) rt template_data s = (o, s).
Proof.
  unfold render_template, bind, lift, ret.
  repeat match goal with
         | |- context [match ?c with Returns _ => _ | Raises _ => _ end] => destruct c
         end; eauto.
Qed.

Local Arguments lit : simpl never.
Local Arguments llm_prompt : simpl never.
Local Arguments render_template : simpl never.
Local Arguments _get_transcript : simpl never.
Local Arguments _get_scenes : simpl never.

Ltac flatten := rewrite <- ?app_assoc, ?app_nil_r; cbn [app].
Ltac unfold_states :=
  unfold finished, success_response, generation_failure, extend, advance, started, flushed,
    snapshot, generating, initial_content.
Ltac conclude H :=
  let H' := fresh in
  pose proof H as H';
  unfold finished, success_response, generation_failure, extend, advance, started, flushed,
    snapshot, generating, initial_content in H';
  unfold_states; cbn in H' |- *;
  rewrite <- ?app_assoc, ?app_nil_r in H'; cbn [app] in H'; flatten; exact H'.

Lemma run_body_behaves s :
  body_behaviour co rt video_id collection_id prompt s
    (fst (run_body co rt video_id collection_id prompt s))
    (snd (run_body co rt video_id collection_id prompt s)).
Proof.
  unfold run_body, TextContent_new, content_append, update_object, push_update, publish,
    actions_append, emit, external, bind, ret, raise, lift, modify, gets.
  cbn.
  destruct (new_text_content co (world s)) as [[[]|e] w1] eqn:E1; cbn.
  2:{ conclude (content_failed co rt video_id collection_id prompt s e w1 E1). }
  destruct (new_videodb_tool co collection_id w1) as [[[]|e] w2] eqn:E2; cbn.
  2:{ conclude (tool_failed co rt video_id collection_id prompt s w1 e w2 E1 E2). }
  pose proof (prepared_intro co collection_id s w1 w2 E1 E2) as Hprep.
  match goal with
  | |- context [_get_transcript co video_id ?st] =>
      replace st with (advance (started s w1) w2 [EvVideoDBTool collection_id (Returns tt)])
        by (unfold_states; cbn; flatten; reflexivity)
  end.
  set (s2 := advance _ _ _) in *. clearbody s2.
  pose proof (_get_transcript_behaves co video_id s2) as Ht.
  destruct (_get_transcript co video_id s2) as [[t|e] s3]; cbn in Ht |- *.
  2:{ eapply transcript_failed; eauto. }
  pose proof (_get_scenes_behaves co video_id s3) as Hs.
  destruct (_get_scenes co video_id s3) as [[sc|e] s4]; cbn in Hs |- *.
  2:{ eapply scenes_failed; eauto. }
  destruct (chat_completions co [mkMsg user (llm_prompt rt prompt t sc)] json_object (world s4))
    as [r w5] eqn:E5.
  pose proof (asked_intro co rt video_id collection_id prompt s s2 t s3 sc s4 r w5
                Hprep Ht Hs E5) as Hask.
  set (s5 := extend s4 w5 _ _) in *.
  match goal with
  | |- context [(Raises _, ?st)] =>
      replace st with s5 by (subst s5; unfold_states; cbn; flatten; reflexivity)
  end.
  clearbody s5. eapply answered; [exact Hask|]. clear Hask.
  destruct r as [reply|e]; cbn.
  2:{ constructor. }
  destruct (llm_status reply) eqn:Estatus; cbn.
  2:{ by constructor. }
  destruct (json_loads rt (llm_content reply)) as [template_data|e] eqn:Eloads; cbn.
  2:{ by eapply reply_unparsable. }
  destruct (render_template_pure template_data) as [o Hrender].
  rewrite (Hrender s5). destruct o as [template|e]; cbn.
  2:{ eapply reply_unrenderable; eauto. }
  conclude (completed rt (length (heap s)) s5 reply template_data template
              Estatus Eloads (Hrender s5)).
Qed.

(** Trace projections over the events of the two acquisitions. *)
Ltac by_class H :=
  apply omap_none; eapply Forall_impl; [exact H|]; intros []; cbn; tauto.

Lemma transcript_events_other s evs :
  Forall (transcript_event s) evs ->
  chats evs = [] /\ scene_listings evs = [] /\ scene_creations evs = [] /\
  scene_fetches evs = [] /\ content_constructions evs = [] /\ terminals evs = [].
Proof. intros H. repeat split; by_class H. Qed.

Lemma scenes_events_other s evs :
  Forall (scenes_event s) evs ->
  chats evs = [] /\ transcript_fetches evs = [] /\ content_constructions evs = [] /\
  terminals evs = [].
Proof. intros H. repeat split; by_class H. Qed.

Lemma transcript_event_progress s ev : transcript_event s ev -> progress_event s ev.
Proof. by destruct ev. Qed.
Lemma scenes_event_progress s ev : scenes_event s ev -> progress_event s ev.
Proof. by destruct ev. Qed.

Lemma asked_events s t sc r s5 :
  asked co rt video_id collection_id prompt s t sc r s5 ->
  exists w1 w5 acts evs_t evs_s p,
    let s1 := started s w1 in
    s5 = extend s1 w5 acts
           ([EvVideoDBTool collection_id (Returns tt)] ++ evs_t ++ evs_s ++
            [EvPushUpdate p;
             EvChatCompletions [mkMsg user (llm_prompt rt prompt t sc)] json_object r]) /\
    Forall (transcript_event s1) evs_t /\ acquired_transcript evs_t = Some t /\
    Forall (scenes_event s1) evs_s /\ acquired_scenes evs_s = sc /\
    (scene_listings evs_s = [Returns []] ->
     forall rc, scene_creations evs_s = [rc] -> creation_failed rc -> sc = None) /\
    snap_content p = snap_content (snapshot s1).
Proof.
  intros [s2 t' s3 sc' s4 r' w5 [w1 w2 E1 E2] Ht Hs E5].
  apply transcript_behaviour_extends in Ht as (w3 & acts_t & evs_t & -> & Ft & At).
  apply scenes_behaviour_extends in Hs as (w4 & acts_s & evs_s & -> & Fs & As & Cs).
  change (Forall (transcript_event (started s w1)) evs_t) in Ft.
  change (Forall (scenes_event (started s w1)) evs_s) in Fs.
  exists w1, w5, (acts_t ++ acts_s ++ [generating]), evs_t, evs_s. eexists.
  cbn zeta. split.
  { rewrite !extend_extend, extend_advance. reflexivity. }
  split; [exact Ft|]. split; [exact At|]. split; [exact Fs|].
  split; [by apply As|]. split; [|done].
  intros Hl rc Hc Hf. specialize (Cs Hl rc Hc Hf). congruence.
Qed.

(** **** [run] in terms of its body and its except clause *)

Lemma run_unfold s :
  run co rt video_id collection_id prompt s =
  match run_body co rt video_id collection_id prompt (entered s) with
  | (Returns r, s1) => (Returns r, s1)
  | (Raises e, s1) => run_handler e s1
  end.
Proof. reflexivity. Qed.

Lemma run_handler_eq e s1 :
  run_handler e s1 =
  (Returns (failure_response e),
   match local_text_content s1 with
   | Some a => reported e a s1
   | None => advance s1 (world s1) [error_logged]
   end).
Proof.
  unfold run_handler, update_object, publish, logger_exception, emit, bind, ret, modify, gets.
  cbn. destruct (local_text_content s1) eqn:E; cbn.
  - unfold reported, snapshot, error_logged; cbn. rewrite <- !app_assoc, E. reflexivity.
  - unfold advance; cbn. rewrite E. reflexivity.
Qed.

(** The body either fails to construct the content object, or starts
    and from there on only makes progress, publishing at the very end
    when it completes. *)
Lemma body_behaviour_shape s o s6 :
  body_behaviour co rt video_id collection_id prompt s o s6 ->
  (exists e w1, o = Raises e /\ s6 = advance s w1 [EvNewTextContent (Raises e)]) \/
  (exists w1 w' acts evs,
      Forall (progress_event (started s w1)) evs /\
      ((exists e, o = Raises e /\ s6 = extend (started s w1) w' acts evs) \/
       (exists template,
           o = Returns (success_response template) /\
           s6 = finished (extend (started s w1) w' acts evs) (length (heap s)) template))).
Proof.
  intros [e w1 E1|w1 e w2 E1 E2|s2 e s3 [w1 w2 E1 E2] Ht|s2 t s3 e s4 [w1 w2 E1 E2] Ht Hs
         |t sc r s5 o' s6' Hask Hreply].
  - left. eauto.
  - right. exists w1, w2, [], [EvVideoDBTool collection_id (Raises e)].
    split; [by repeat constructor|]. left. eexists. split; [done|].
    apply advance_as_extend.
  - right. apply transcript_behaviour_extends in Ht as (w3 & acts_t & evs_t & -> & Ft & _).
    exists w1, w3, acts_t, ([EvVideoDBTool collection_id (Returns tt)] ++ evs_t).
    split.
    { apply Forall_app. split; [by repeat constructor|].
      eapply Forall_impl; [exact Ft|]. apply transcript_event_progress. }
    left. eexists. split; [done|]. apply extend_advance.
  - right. apply transcript_behaviour_extends in Ht as (w3 & acts_t & evs_t & -> & Ft & _).
    apply scenes_behaviour_extends in Hs as (w4 & acts_s & evs_s & -> & Fs & _).
    exists w1, w4, (acts_t ++ acts_s),
      ([EvVideoDBTool collection_id (Returns tt)] ++ evs_t ++ evs_s).
    split.
    { rewrite !Forall_app. split; [by repeat constructor|]. split.
      - eapply Forall_impl; [exact Ft|]. apply transcript_event_progress.
      - eapply Forall_impl; [exact Fs|]. apply scenes_event_progress. }
    left. eexists. split; [done|].
    by rewrite extend_extend, extend_advance.
  - right.
    apply asked_events in Hask
      as (w1 & w5 & acts & evs_t & evs_s & p0 & -> & Ft & _ & Fs & _ & _ & Hp).
    assert (Forall (progress_event (started s w1))
              ([EvVideoDBTool collection_id (Returns tt)] ++ evs_t ++ evs_s ++
               [EvPushUpdate p0;
                EvChatCompletions [mkMsg user (llm_prompt rt prompt t sc)] json_object r]))
      as Hall.
    { rewrite !Forall_app. split; [by repeat constructor|]. split; [|split].
      + eapply Forall_impl; [exact Ft|]. apply transcript_event_progress.
      + eapply Forall_impl; [exact Fs|]. apply scenes_event_progress.
      + by repeat constructor. }
    destruct Hreply; do 4 eexists; (split; [exact Hall|]);
      [left|left|left|left|right]; eexists; split; reflexivity.
Qed.

(** **** What the sink sees of the agent's content object *)

Lemma own_content_last (h : list TextContent) (c : list nat) a tc acts :
  h !! a = Some tc ->
  own_content (mkSnapshot acts (omap (fun b => h !! b) (c ++ [a]))) = Some tc.
Proof.
  intros H. unfold own_content; cbn [snap_content].
  rewrite omap_app, omap_singleton, H. apply last_snoc.
Qed.

Lemma own_content_started s w1 :
  own_content (snapshot (started s w1)) = Some initial_content.
Proof. apply own_content_last. by apply list_lookup_middle. Qed.

Lemma sink_progress s evs :
  Forall (progress_event s) evs ->
  exists pushes,
    sink evs = map Progress pushes /\
    Forall (fun snap => snap_content snap = snap_content (snapshot s)) pushes /\
    terminals evs = [] /\ content_constructions evs = [].
Proof.
  induction 1 as [|ev evs Hev _ (pushes & Hs & Hp & Ht & Hc)].
  - by exists [].
  - destruct ev; cbn in Hev; try done;
      try (exists pushes; repeat split; cbn; assumption).
    exists (snap :: pushes).
    split; [exact (f_equal (cons (Progress snap)) Hs)|].
    split; [by constructor|]. by split.
Qed.

Lemma progress_own_status s w1 pushes :
  Forall (fun snap => snap_content snap = snap_content (snapshot (started s w1))) pushes ->
  Forall (fun snap => own_status snap = Some progress) pushes.
Proof.
  intros HF. eapply Forall_impl; [exact HF|]. clear HF.
  intros snap H. unfold own_status, own_content. rewrite H.
  fold (own_content (snapshot (started s w1))). by rewrite own_content_started.
Qed.

(** **** The three ways an invocation can go *)

Lemma run_cases s :
  let body := run_body co rt video_id collection_id prompt (entered s) in
  let res := run co rt video_id collection_id prompt s in
  (exists e w1,
      body = (Raises e, advance (entered s) w1 [EvNewTextContent (Raises e)]) /\
      res = (Returns (failure_response e),
             advance (entered s) w1 [EvNewTextContent (Raises e); error_logged])) \/
  (exists w1 w' acts evs,
      Forall (progress_event (started s w1)) evs /\
      let s1 := extend (started s w1) w' acts evs in
      (exists e,
          body = (Raises e, s1) /\
          res = (Returns (failure_response e), reported e (length (heap s)) s1)) \/
      (exists template,
          body = (Returns (success_response template),
                  finished s1 (length (heap s)) template) /\
          res = body)).
Proof.
  intros body res. subst res. rewrite run_unfold. fold body.
  pose proof (run_body_behaves (entered s)) as Hb. fold body in Hb.
  destruct body as [o s6]. cbn [fst snd] in Hb.
  apply body_behaviour_shape in Hb
    as [(e & w1 & -> & ->)|(w1 & w' & acts & evs & Hall & [(e & -> & ->)|(tpl & -> & ->)])].
  - left. exists e, w1. split; [done|]. rewrite run_handler_eq. cbn.
    unfold advance; cbn. by rewrite <- app_assoc.
  - right. exists w1, w', acts, evs. split; [exact Hall|]. left. exists e.
    split; [done|]. by rewrite run_handler_eq.
  - right. exists w1, w', acts, evs. split; [exact Hall|]. right. by exists tpl.
Qed.

Lemma unconstructed_events s e w1 :
  new_events s (advance (entered s) w1 [EvNewTextContent (Raises e); error_logged])
  = [EvNewTextContent (Raises e); error_logged].
Proof. by apply new_events_app. Qed.

Lemma reported_events e s w1 w' acts evs :
  exists snap,
    new_events s (reported e (length (heap s)) (extend (started s w1) w' acts evs))
    = [EvNewTextContent (Returns tt); EvPushUpdate (snapshot (started s w1))] ++ evs ++
      [error_logged; EvPublish snap] /\
    own_content snap =
      Some (mkTextContent agent_name error
              (lit "Error generating hook template: " ++ exc_str e) []).
Proof.
  eexists. split.
  - apply new_events_app. cbn. rewrite <- ?app_assoc. reflexivity.
  - apply own_content_last. rewrite !list_lookup_alter.
    rewrite list_lookup_middle by done. rewrite !decide_True by done. reflexivity.
Qed.

Lemma finished_events template s w1 w' acts evs :
  exists snap,
    new_events s (finished (extend (started s w1) w' acts evs) (length (heap s)) template)
    = [EvNewTextContent (Returns tt); EvPushUpdate (snapshot (started s w1))] ++ evs ++
      [EvPublish snap] /\
    own_content snap =
      Some (mkTextContent agent_name success
              (lit "Hook template generated successfully") template).
Proof.
  eexists. split.
  - apply new_events_app. cbn. rewrite <- ?app_assoc. reflexivity.
  - apply own_content_last. rewrite !list_lookup_alter.
    rewrite list_lookup_middle by done. rewrite !decide_True by done. reflexivity.
Qed.

Ltac split_events :=
  unfold sink, terminals, content_constructions, chats, acquired_transcript,
    acquired_scenes, transcript_fetches, scene_fetches, scene_listings, scene_creations in *;
  rewrite ?omap_app.

(** C6, amended: an invocation emits progress messages and then at most
    one terminal message. When the content object was constructed the
    terminal message is exactly one, a success if the invocation returns
    SUCCESS and an error if it returns ERROR, and nothing follows it;
    when the construction of the content object raised, nothing at all
    reaches the sink and the invocation returns ERROR. *)
Theorem at_most_one_terminal_message s :
  let res := run co rt video_id collection_id prompt s in
  let evs := new_events s (snd res) in
  exists pushes resp,
    fst res = Returns resp /\
    Forall (fun snap => own_status snap = Some progress) pushes /\
    match content_constructions evs with
    | [Returns tt] =>
        exists final,
          sink evs = map Progress pushes ++ [Terminal final] /\
          own_status final =
            Some (match status resp with SUCCESS => success | ERROR => error end)
    | _ => sink evs = [] /\ status resp = ERROR
    end.
Proof.
  intros res evs. subst evs.
  destruct (run_cases s)
    as [(e & w1 & _ & Hres)
       |(w1 & w' & acts & evs & Hall & [(e & _ & Hres)|(tpl & Hbody & Hres)])];
    fold res in Hres; try rewrite Hbody in Hres; rewrite Hres; cbn [fst snd].
  - exists [], (failure_response e). rewrite unconstructed_events. by cbn.
  - destruct (reported_events e s w1 w' acts evs) as (final & -> & Hown).
    destruct (sink_progress _ _ Hall) as (pushes & Hs & Hp & Ht & Hc).
    exists (snapshot (started s w1) :: pushes), (failure_response e).
    split; [done|]. split.
    { constructor; [|by eapply progress_own_status].
      unfold own_status. by rewrite own_content_started. }
    split_events. rewrite Hc, Hs. cbn. exists final. split; [done|].
    unfold own_status. by rewrite Hown.
  - destruct (finished_events tpl s w1 w' acts evs) as (final & -> & Hown).
    destruct (sink_progress _ _ Hall) as (pushes & Hs & Hp & Ht & Hc).
    exists (snapshot (started s w1) :: pushes), (success_response tpl).
    split; [done|]. split.
    { constructor; [|by eapply progress_own_status].
      unfold own_status. by rewrite own_content_started. }
    split_events. rewrite Hc, Hs. cbn. exists final. split; [done|].
    unfold own_status. by rewrite Hown.
Qed.


(** C10: the except clause assigns status and status_message of the
    content object and nothing else. The object keeps its text, every
    other object is untouched, and what is published is the objects as
    they then are. On an invocation that returns ERROR, whatever is
    published shows the agent's content object with the text it was
    constructed with, the empty one: no template, whole or partial. *)
Theorem error_path_keeps_text :
  (forall e s1 a content,
      local_text_content s1 = Some a -> heap s1 !! a = Some content ->
      let s' := snd (run_handler e s1) in
      heap s' !! a =
        Some (mkTextContent (tc_agent_name content) error
                (lit "Error generating hook template: " ++ exc_str e)
                (tc_text content)) /\
      (forall b, b <> a -> heap s' !! b = heap s1 !! b) /\
      om_content s' = om_content s1 /\
      terminals (new_events s1 s') = [snapshot s']) /\
  (forall s resp,
      let res := run co rt video_id collection_id prompt s in
      fst res = Returns resp -> status resp = ERROR ->
      Forall (fun snap => tc_text <$> own_content snap = Some [])
             (terminals (new_events s (snd res)))).
Proof.
  split.
  - intros e s1 a content Hlocal Hcontent s'. subst s'.
    rewrite run_handler_eq, Hlocal. cbn [snd]. repeat split.
    + cbn. rewrite !list_lookup_alter, Hcontent, !decide_True by done. reflexivity.
    + intros b Hb. cbn. by rewrite !list_lookup_alter, !decide_False by done.
    + erewrite new_events_app by reflexivity. reflexivity.
  - intros s resp res Hresp Hstatus.
    destruct (run_cases s)
      as [(e & w1 & _ & Hres)
         |(w1 & w' & acts & evs & Hall & [(e & _ & Hres)|(tpl & Hbody & Hres)])];
      fold res in Hres; try rewrite Hbody in Hres; rewrite Hres in *; cbn [fst snd] in *.
    + by rewrite unconstructed_events.
    + destruct (reported_events e s w1 w' acts evs) as (final & -> & Hown).
      destruct (sink_progress _ _ Hall) as (pushes & Hs & Hp & Ht & Hc).
      split_events. rewrite Ht. cbn. constructor; [|done]. by rewrite Hown.
    + injection Hresp as <-. discriminate Hstatus.
Qed.

(** **** The events of the body, read for the LLM call *)

Ltac same_trace :=
  apply new_events_app; cbn;
  repeat first [rewrite <- app_assoc | progress (cbn [app])]; reflexivity.

Lemma reply_behaviour_state a s5 r o s6 :
  reply_behaviour rt a s5 r o s6 ->
  s6 = s5 \/ exists template, s6 = finished s5 a template.
Proof. destruct 1; eauto. Qed.

Lemma reply_behaviour_success a s5 reply o s6 template_data template :
  reply_behaviour rt a s5 (Returns reply) o s6 ->
  llm_status reply = true ->
  json_loads rt (llm_content reply) = Returns template_data ->
  (forall s, render_template rt template_data s = (Returns template, s)) ->
  o = Returns (success_response template).
Proof.
  intros H Hstatus Hloads Hrender. inversion H; subst; try congruence.
  all: match goal with
       | H1 : json_loads rt _ = Returns ?d |- _ =>
           assert (d = template_data) as -> by congruence
       end.
  all: match goal with
       | H1 : render_template rt _ _ = _ |- _ => rewrite Hrender in H1
       end.
  all: congruence.
Qed.

Lemma body_behaviour_chat s o s6 :
  body_behaviour co rt video_id collection_id prompt s o s6 ->
  let evs := new_events s s6 in
  ((exists e, o = Raises e) /\ chats evs = [] /\
   forall t, acquired_transcript evs = Some t ->
             scene_listings evs = [Returns []] ->
             forall rc, scene_creations evs = [rc] -> ~ creation_failed rc) \/
  (exists t sc r,
      chats evs = [([mkMsg user (llm_prompt rt prompt t sc)], r)] /\
      acquired_transcript evs = Some t /\ acquired_scenes evs = sc /\
      (scene_listings evs = [Returns []] ->
       forall rc, scene_creations evs = [rc] -> creation_failed rc -> sc = None) /\
      reply_outcome (W:=W) rt r o).
Proof.
  intros [e w1 E1|w1 e w2 E1 E2|s2 e s3 [w1 w2 E1 E2] Ht|s2 t s3 e s4 [w1 w2 E1 E2] Ht Hs
         |t sc r s5 o' s6' Hask Hreply] evs; subst evs.
  - left. erewrite new_events_app by reflexivity. split; [eauto|]. by split.
  - left. erewrite new_events_app by (cbn; rewrite <- ?app_assoc; reflexivity).
    split; [eauto|]. by split.
  - left. apply transcript_behaviour_extends in Ht as (w3 & acts_t & evs_t & -> & Ft & At).
    destruct (transcript_events_other _ _ Ft) as (Hch & _).
    erewrite new_events_app by (cbn; rewrite <- ?app_assoc; reflexivity).
    split; [eauto|]. split_events. rewrite Hch. split; [done|].
    cbn. rewrite At. done.
  - left. apply transcript_behaviour_extends in Ht as (w3 & acts_t & evs_t & -> & Ft & At).
    apply scenes_behaviour_extends in Hs as (w4 & acts_s & evs_s & -> & Fs & As & Cs).
    destruct (transcript_events_other _ _ Ft) as (Hch & Hl & Hc & _).
    destruct (scenes_events_other _ _ Fs) as (Hch' & _).
    erewrite new_events_app by (cbn; rewrite <- ?app_assoc; reflexivity).
    split; [eauto|]. split_events. rewrite Hch, Hch', Hl, Hc. split; [done|].
    cbn. intros t' _ Hlist rc Hcreate Hfail. by specialize (Cs Hlist rc Hcreate Hfail).
  - right. exists t, sc, r.
    apply asked_events in Hask
      as (w1 & w5 & acts & evs_t & evs_s & p0 & -> & Ft & At & Fs & As & Cs & Hp).
    destruct (transcript_events_other _ _ Ft) as (Hch & Hl & Hc & Hf & _).
    destruct (scenes_events_other _ _ Fs) as (Hch' & Htf & _).
    assert (exists tail,
               new_events s s6' =
               [EvNewTextContent (Returns tt); EvPushUpdate (snapshot (started s w1));
                EvVideoDBTool collection_id (Returns tt)] ++ evs_t ++ evs_s ++
               [EvPushUpdate p0;
                EvChatCompletions [mkMsg user (llm_prompt rt prompt t sc)] json_object r]
               ++ tail /\ Forall handler_event tail) as (tail & -> & Htail).
    { destruct (reply_behaviour_state _ _ _ _ _ Hreply) as [->|(tpl & ->)].
      - exists []. split; [same_trace|done].
      - eexists [_]. split; [same_trace|]. by repeat constructor. }
    assert (chats tail = [] /\ transcript_fetches tail = [] /\ scene_fetches tail = [] /\
            scene_listings tail = [] /\ scene_creations tail = []) as (T1 & T2 & T3 & T4 & T5).
    { repeat split; apply omap_none; (eapply Forall_impl; [exact Htail|]);
        intros []; cbn; tauto. }
    split_events. rewrite Hch, Hch', Hl, Hc, Hf, Htf, T1, T2, T3, T4, T5. cbn.
    rewrite !app_nil_r.
    split; [done|]. split; [done|]. split; [done|]. split; [exact Cs|].
    by do 3 eexists.
Qed.

(** **** From the body to the invocation *)

Lemma run_vs_body s :
  let body := run_body co rt video_id collection_id prompt (entered s) in
  let res := run co rt video_id collection_id prompt s in
  fst res = match fst body with
            | Returns resp => Returns resp
            | Raises e => Returns (failure_response e)
            end /\
  exists tail,
    new_events s (snd res) = new_events s (snd body) ++ tail /\ Forall handler_event tail.
Proof.
  cbn zeta.
  destruct (run_cases s)
    as [(e & w1 & Hbody & Hres)
       |(w1 & w' & acts & evs & Hall & [(e & Hbody & Hres)|(tpl & Hbody & Hres)])];
    cbn zeta in Hbody, Hres; rewrite Hres, Hbody; cbn [fst snd].
  - split; [done|]. exists [error_logged]. split; [|by repeat constructor].
    rewrite unconstructed_events.
    by erewrite (new_events_app s (advance _ _ [_])) by reflexivity.
  - split; [done|].
    destruct (reported_events e s w1 w' acts evs) as (final & -> & _).
    exists [error_logged; EvPublish final]. split; [|by repeat constructor].
    erewrite (new_events_app s (extend _ _ _ _)) by (cbn; rewrite <- app_assoc; reflexivity).
    rewrite <- !app_assoc. reflexivity.
  - split; [done|]. exists []. split; [|done]. by rewrite app_nil_r.
Qed.

Lemma handler_events_other tail :
  Forall handler_event tail ->
  chats tail = [] /\ transcript_fetches tail = [] /\ scene_fetches tail = [] /\
  scene_listings tail = [] /\ scene_creations tail = [].
Proof.
  intros H. repeat split; apply omap_none; (eapply Forall_impl; [exact H|]);
    intros []; cbn; tauto.
Qed.

Lemma run_chat s :
  let res := run co rt video_id collection_id prompt s in
  let evs := new_events s (snd res) in
  ((exists e, fst res = Returns (failure_response e)) /\ chats evs = [] /\
   forall t, acquired_transcript evs = Some t ->
             scene_listings evs = [Returns []] ->
             forall rc, scene_creations evs = [rc] -> ~ creation_failed rc) \/
  (exists t sc r o,
      chats evs = [([mkMsg user (llm_prompt rt prompt t sc)], r)] /\
      acquired_transcript evs = Some t /\ acquired_scenes evs = sc /\
      (scene_listings evs = [Returns []] ->
       forall rc, scene_creations evs = [rc] -> creation_failed rc -> sc = None) /\
      reply_outcome (W:=W) rt r o /\
      fst res = match o with
                | Returns resp => Returns resp
                | Raises e => Returns (failure_response e)
                end).
Proof.
  intros res evs. subst evs.
  destruct (run_vs_body s) as (Hfst & tail & Hev & Htail). fold res in Hfst, Hev.
  destruct (handler_events_other _ Htail) as (T1 & T2 & T3 & T4 & T5).
  pose proof (run_body_behaves (entered s)) as Hb.
  apply body_behaviour_chat in Hb. cbn zeta in Hb.
  change (new_events (entered s)) with (new_events s) in Hb.
  rewrite Hev, Hfst. clear Hev Hfst.
  destruct Hb as [((e & He) & Hch & Hguard)|(t & sc & r & Hch & Ht & Hs & Hc & Ho)].
  - left. rewrite He. split; [eauto|]. split_events.
    rewrite T1, T2, T4, T5, !app_nil_r. by split.
  - right. exists t, sc, r, (fst (run_body co rt video_id collection_id prompt (entered s))).
    split_events. rewrite T1, T2, T3, T4, T5, !app_nil_r. done.
Qed.

Lemma run_terminals s :
  let res := run co rt video_id collection_id prompt s in
  exists resp,
    fst res = Returns resp /\
    Forall (fun snap =>
              own_status snap
              = Some (match status resp with SUCCESS => success | ERROR => error end))
           (terminals (new_events s (snd res))).
Proof.
  intros res.
  destruct (run_cases s)
    as [(e & w1 & _ & Hres)
       |(w1 & w' & acts & evs & Hall & [(e & _ & Hres)|(tpl & Hbody & Hres)])];
    fold res in Hres; try rewrite Hbody in Hres; rewrite Hres; cbn [fst snd].
  - exists (failure_response e). by rewrite unconstructed_events.
  - destruct (reported_events e s w1 w' acts evs) as (final & -> & Hown).
    destruct (sink_progress _ _ Hall) as (pushes & Hs & Hp & Ht & Hc).
    exists (failure_response e). split; [done|]. split_events. rewrite Ht. cbn.
    constructor; [|done]. unfold own_status. by rewrite Hown.
  - destruct (finished_events tpl s w1 w' acts evs) as (final & -> & Hown).
    destruct (sink_progress _ _ Hall) as (pushes & Hs & Hp & Ht & Hc).
    exists (success_response tpl). split; [done|]. split_events. rewrite Ht. cbn.
    constructor; [|done]. unfold own_status. by rewrite Hown.
Qed.

(** C7: when the LLM replies with a non-success status, [run] returns
    status ERROR with the message 'Agent failed with error: Failed to
    generate hook template', and the data of the response has no
    'template' key (it is empty). *)
Theorem llm_failure_is_an_error s msgs reply :
  let res := run co rt video_id collection_id prompt s in
  In (msgs, Returns reply) (chats (new_events s (snd res))) ->
  llm_status reply = false ->
  exists resp,
    fst res = Returns resp /\
    status resp = ERROR /\
    message resp = lit "Agent failed with error: " ++ lit "Failed to generate hook template" /\
    data resp !! lit "template" = None /\ data resp = ∅.
Proof.
  intros res Hin Hstatus.
  destruct (run_chat s) as [(_ & Hch & _)|(t & sc & r & o & Hch & _ & _ & _ & Ho & Hres)];
    fold res in Hch; rewrite Hch in Hin; [destruct Hin|].
  destruct Hin as [[= <- ->]|[]]. fold res in Hres. rewrite Hres.
  destruct Ho as (a & s5 & s6 & Ho).
  inversion Ho; subst; try congruence.
  exists (failure_response generation_failure). by repeat split.
Qed.

(** C4: whatever transcript and scenes the invocation acquired, the
    prompt it sends to the LLM is the fixed text with three fields filled
    in: the user's prompt; the first 1000 characters of the transcript,
    or 'No transcript available' when the transcript is empty; and
    json.dumps of the descriptions of the first 5 scenes, or
    'No scenes available' when there are no scenes (none acquired, or an
    empty sequence). *)
Theorem prompt_embeds_inputs s msgs r :
  let res := run co rt video_id collection_id prompt s in
  let evs := new_events s (snd res) in
  In (msgs, r) (chats evs) ->
  exists transcript,
    acquired_transcript evs = Some transcript /\
    msgs = [mkMsg user
              (prompt_intro ++ prompt ++ prompt_analysis ++
               (match transcript with
                | [] => lit "No transcript available"
                | _ :: _ => take 1000 transcript
                end) ++
               prompt_scenes_label ++
               (match acquired_scenes evs with
                | Some (scene :: scenes) =>
                    json_dumps rt (map description (take 5 (scene :: scenes)))
                | Some [] | None => lit "No scenes available"
                end) ++
               prompt_instructions)].
Proof.
  cbn zeta. intros Hin.
  pose proof (run_chat s) as H. cbn zeta in H.
  destruct H as [(_ & Hch & _)|(t & sc & r' & o & Hch & Ht & Hs & _)];
    rewrite Hch in Hin; [destruct Hin|].
  destruct Hin as [[= <- <-]|[]].
  exists t. split; [exact Ht|]. rewrite Hs.
  unfold llm_prompt, transcript_field, scenes_field.
  by destruct t, sc as [[|]|].
Qed.

(** C1, amended: when transcript acquisition succeeds, scene listing
    returns an empty list and scene creation raises or gives an empty
    result, the LLM is asked exactly once, with the prompt for that
    transcript in which 'No scenes available' stands where the JSON
    array of scene descriptions would be; and if the LLM then replies
    with success status and a reply that parses and renders, the
    invocation returns SUCCESS with the rendered template. *)
Theorem scene_creation_failure_tolerated s transcript rc :
  let res := run co rt video_id collection_id prompt s in
  let evs := new_events s (snd res) in
  acquired_transcript evs = Some transcript ->
  scene_listings evs = [Returns []] ->
  scene_creations evs = [rc] -> creation_failed rc ->
  exists r,
    chats evs =
      [([mkMsg user
           (prompt_intro ++ prompt ++ prompt_analysis ++ transcript_field transcript ++
            prompt_scenes_label ++ lit "No scenes available" ++ prompt_instructions)], r)] /\
    forall reply template_data template,
      r = Returns reply -> llm_status reply = true ->
      json_loads rt (llm_content reply) = Returns template_data ->
      fst (render_template rt template_data s) = Returns template ->
      exists resp,
        fst res = Returns resp /\ status resp = SUCCESS /\
        data resp = {[ lit "template" := PyStr template ]}.
Proof.
  cbn zeta. intros Ht Hl Hc Hf.
  pose proof (run_chat s) as H. cbn zeta in H.
  destruct H as [(_ & _ & Hguard)|(t & sc & r & o & Hch & Ht' & _ & Hnone & Ho & Hres)].
  { by destruct (Hguard transcript Ht Hl rc Hc). }
  rewrite Ht in Ht'. injection Ht' as <-.
  rewrite (Hnone Hl rc Hc Hf) in Hch. exists r. split; [exact Hch|].
  intros reply template_data template -> Hstatus Hloads Hrender.
  destruct Ho as (a & s5 & s6 & Ho). rewrite Hres.
  destruct (render_template_pure template_data) as [o' Ho'].
  rewrite Ho' in Hrender. cbn in Hrender. subst o'.
  rewrite (reply_behaviour_success _ _ _ _ _ _ _ Ho Hstatus Hloads Ho').
  exists (success_response template). done.
Qed.

(** C2: transcript acquisition falls back once. When the first fetch
    raises, the agent flushes the progress note 'Indexing video speech...'
    and calls spoken-word indexing; once indexing has returned it fetches
    again, one time, and that fetch's result, a transcript or an
    exception, is the result of the procedure (an exception of indexing
    itself propagates likewise, and then nothing is fetched again). When
    both fetches of an invocation raise, [run] returns status ERROR and
    publishes no success. *)
Theorem transcript_fallback_is_single_shot :
  (forall s e1 w1,
      get_transcript co video_id (world s) = (Raises e1, w1) ->
      let res := _get_transcript co video_id s in
      exists r_index w2 retry p1 p2,
        index_spoken_words co video_id w1 = (r_index, w2) /\
        new_events s (snd res) =
          [EvPushUpdate p1; EvGetTranscript video_id (Raises e1);
           EvPushUpdate p2; EvIndexSpokenWords video_id r_index] ++ retry /\
        snap_actions p2 =
          om_actions s ++ [lit "Processing video transcript..."; lit "Indexing video speech..."] /\
        match r_index with
        | Returns _ =>
            exists r w3,
              get_transcript co video_id w2 = (r, w3) /\
              retry = [EvGetTranscript video_id r] /\ fst res = r
        | Raises e2 => retry = [] /\ fst res = Raises e2
        end) /\
  (forall s e1 e2,
      let res := run co rt video_id collection_id prompt s in
      let evs := new_events s (snd res) in
      transcript_fetches evs = [Raises e1; Raises e2] ->
      exists resp,
        fst res = Returns resp /\ status resp = ERROR /\
        Forall (fun snap => own_status snap <> Some success) (terminals evs)).
Proof.
  split.
  - intros s e1 w1 H1 res. subst res.
    pose proof (_get_transcript_behaves co video_id s) as Hb.
    destruct (_get_transcript co video_id s) as [o s']. cbn [fst snd] in *.
    destruct Hb as [t w1' E1|e1' w1' e2 w2 E1 E2|e1' w1' w2 r w3 E1 E2 E3];
      rewrite H1 in E1; try discriminate; injection E1 as <- <-.
    + exists (Raises e2), w2, []. do 2 eexists.
      split; [exact E2|]. split; [same_trace|]. by split.
    + exists (Returns tt), w2, [EvGetTranscript video_id r]. do 2 eexists.
      split; [exact E2|]. split; [same_trace|]. split; [done|]. eauto.
  - cbn zeta. intros s e1 e2 Hfetch.
    pose proof (run_terminals s) as (resp & Hresp & Hterm). cbn zeta in Hresp, Hterm.
    exists resp. split; [exact Hresp|].
    assert (status resp = ERROR) as Hstatus.
    { pose proof (run_chat s) as H. cbn zeta in H.
      destruct H as [((e & He) & _)|(t & sc & r & o & _ & Ht & _)].
      - rewrite He in Hresp. by injection Hresp as <-.
      - unfold acquired_transcript in Ht. by rewrite Hfetch in Ht. }
    split; [exact Hstatus|].
    eapply Forall_impl; [exact Hterm|]. intros snap ->. by rewrite Hstatus.
Qed.

(** **** The rendered text *)

Lemma join_app sep (l1 l2 : list pystr) :
  l1 <> [] -> l2 <> [] -> join sep (l1 ++ l2) = join sep l1 ++ sep ++ join sep l2.
Proof.
  intros H1 H2. induction l1 as [|p [|q l1] IH]; [done|..].
  - destruct l2; [done|]. reflexivity.
  - change (p ++ sep ++ join sep ((q :: l1) ++ l2)
            = (p ++ sep ++ join sep (q :: l1)) ++ sep ++ join sep l2).
    rewrite IH by done. by rewrite <- !app_assoc.
Qed.

Lemma layout_unfold script visual_lines transitions music sound_effects pacing :
  visual_lines <> [] ->
  layout script visual_lines transitions music sound_effects pacing =
  (lit "Hook Script:" ++ chr10 ++
   (dquote ++ script ++ dquote) ++ chr10 ++
   [] ++ chr10 ++
   lit "Visual Elements:") ++ chr10 ++
  join chr10 visual_lines ++ chr10 ++
  [] ++ chr10 ++
  lit "Transitions:" ++ chr10 ++
  transitions ++ chr10 ++
  [] ++ chr10 ++
  lit "Audio:" ++ chr10 ++
  (lit "- Music: " ++ music) ++ chr10 ++
  (lit "- Sound Effects: " ++ sound_effects) ++ chr10 ++
  [] ++ chr10 ++
  lit "Pacing:" ++ chr10 ++
  pacing.
Proof.
  intros Hne. unfold layout.
  rewrite (join_app chr10 [_; _; _; _]) by (done || by destruct visual_lines).
  rewrite (join_app chr10 visual_lines) by done.
  reflexivity.
Qed.

Lemma Returns_inj {A} (a b : A) : Returns a = Returns b -> a = b.
Proof. congruence. Qed.

Lemma render_template_returns template_data s template s' :
  render_template rt template_data s = (Returns template, s') ->
  exists script visuals_value visuals transitions music sound_effects pacing,
    py_getitem rt template_data "script" = Returns script /\
    py_getitem rt template_data "visuals" = Returns visuals_value /\
    py_iter rt visuals_value = Returns visuals /\
    py_getitem rt template_data "transitions" = Returns transitions /\
    py_getitem rt template_data "music" = Returns music /\
    py_getitem rt template_data "sound_effects" = Returns sound_effects /\
    py_getitem rt template_data "pacing" = Returns pacing /\
    template =
      leading ++
      layout (py_str rt script) (joined_lines (map (py_str rt) visuals))
             (py_str rt transitions) (py_str rt music) (py_str rt sound_effects)
             (py_str rt pacing) ++
      trailing.
Proof.
  unfold render_template, bind, lift, ret.
  destruct (py_getitem rt template_data "script") as [script|] eqn:E1; [|done].
  destruct (py_getitem rt template_data "visuals") as [visuals_value|] eqn:E2; [|done].
  destruct (py_iter rt visuals_value) as [visuals|] eqn:E3; [|done].
  destruct (py_getitem rt template_data "transitions") as [transitions|] eqn:E4; [|done].
  destruct (py_getitem rt template_data "music") as [music|] eqn:E5; [|done].
  destruct (py_getitem rt template_data "sound_effects") as [sound_effects|] eqn:E6; [|done].
  destruct (py_getitem rt template_data "pacing") as [pacing|] eqn:E7; [|done].
  intros H. apply (f_equal fst) in H. apply Returns_inj in H. subst template.
  exists script, visuals_value, visuals, transitions, music, sound_effects, pacing.
  do 7 (split; [first [assumption|reflexivity]|]).
  unfold leading, trailing.
  rewrite layout_unfold by (by destruct visuals).
  destruct visuals as [|v vs].
  - change (join chr10 (map _ [])) with (@nil N).
    change (join chr10 (joined_lines (map (py_str rt) []))) with (@nil N).
    rewrite <- !app_assoc. rewrite ?app_nil_l. reflexivity.
  - change (joined_lines (map (py_str rt) (v :: vs)))
      with (map (fun visual => lit "- " ++ visual) (map (py_str rt) (v :: vs))).
    rewrite map_map. rewrite <- !app_assoc. rewrite ?app_nil_l. reflexivity.
Qed.

(** C8: rendering is a pure function of the six parsed fields. There is
    a function of what the six subscriptions of the parsed object give
    -- template_data['script'], ['visuals'], ['transitions'], ['music'],
    ['sound_effects'] and ['pacing'], in this order -- that yields the
    result of rendering, the text or the exception, for every parsed
    object and in every state: nothing else of the object is read, and
    nothing of the state. So rendering gives the same text in any two
    states, leaves the state as it was, and rendering again gives again
    the same. *)
Theorem rendering_is_pure :
  exists render : list (outcome pyval) -> outcome pystr,
    forall template_data (s s' : State W),
      render_template rt template_data s
      = (render (map (py_getitem rt template_data) Fields.template_fields), s) /\
      fst (render_template rt template_data s) = fst (render_template rt template_data s') /\
      snd (render_template rt template_data s) = s /\
      render_template rt template_data (snd (render_template rt template_data s))
      = render_template rt template_data s.
Proof.
  exists (fun fields =>
            match fields with
            | [r1; r2; r3; r4; r5; r6] =>
                match r1 with Raises e => Raises e | Returns script =>
                match r2 with Raises e => Raises e | Returns visuals_value =>
                match py_iter rt visuals_value with Raises e => Raises e | Returns visuals =>
                match r3 with Raises e => Raises e | Returns transitions =>
                match r4 with Raises e => Raises e | Returns music =>
                match r5 with Raises e => Raises e | Returns sound_effects =>
                match r6 with Raises e => Raises e | Returns pacing =>
                  Returns (leading ++
                           layout (py_str rt script) (joined_lines (map (py_str rt) visuals))
                                  (py_str rt transitions) (py_str rt music)
                                  (py_str rt sound_effects) (py_str rt pacing) ++
                           trailing)
                end end end end end end end
            | _ => Raises (mkExc ExceptionC [])
            end).
  intros template_data s s'.
  assert (forall s0 : State W,
             render_template rt template_data s0
             = (match py_getitem rt template_data "script" with
                | Raises e => Raises e
                | Returns script =>
                match py_getitem rt template_data "visuals" with
                | Raises e => Raises e
                | Returns visuals_value =>
                match py_iter rt visuals_value with
                | Raises e => Raises e
                | Returns visuals =>
                match py_getitem rt template_data "transitions" with
                | Raises e => Raises e
                | Returns transitions =>
                match py_getitem rt template_data "music" with
                | Raises e => Raises e
                | Returns music =>
                match py_getitem rt template_data "sound_effects" with
                | Raises e => Raises e
                | Returns sound_effects =>
                match py_getitem rt template_data "pacing" with
                | Raises e => Raises e
                | Returns pacing =>
                  Returns (leading ++
                           layout (py_str rt script) (joined_lines (map (py_str rt) visuals))
                                  (py_str rt transitions) (py_str rt music)
                                  (py_str rt sound_effects) (py_str rt pacing) ++
                           trailing)
                end end end end end end end, s0)) as H.
  { intros s0.
    destruct (render_template rt template_data s0) as [o s1] eqn:Hr.
    destruct o as [template|e].
    - destruct (render_template_returns template_data s0 template s1 Hr)
        as (v1 & v2 & l & v4 & v5 & v6 & v7 & H1 & H2 & H3 & H4 & H5 & H6 & H7 & Ht).
      rewrite H1, H2, H3, H4, H5, H6, H7, <- Ht.
      destruct (render_template_pure template_data) as [o Ho].
      rewrite Ho in Hr. apply (f_equal snd) in Hr. cbn [snd] in Hr. by subst s1.
    - revert Hr. unfold render_template, bind, lift, ret.
      destruct (py_getitem rt template_data "script"); [|done].
      destruct (py_getitem rt template_data "visuals") as [v2|]; [|done].
      destruct (py_iter rt v2); [|done].
      destruct (py_getitem rt template_data "transitions"); [|done].
      destruct (py_getitem rt template_data "music"); [|done].
      destruct (py_getitem rt template_data "sound_effects"); [|done].
      destruct (py_getitem rt template_data "pacing"); [|done].
      intros Hr. apply (f_equal fst) in Hr. discriminate Hr. }
  split; [exact (H s)|]. rewrite !H. done.
Qed.

Lemma reply_behaviour_returns a s5 r resp s6 :
  reply_behaviour rt a s5 r (Returns resp) s6 ->
  exists reply template_data template,
    r = Returns reply /\ llm_status reply = true /\
    json_loads rt (llm_content reply) = Returns template_data /\
    render_template rt template_data s5 = (Returns template, s5) /\
    resp = success_response template.
Proof. inversion 1; subst. by do 3 eexists. Qed.

(** C5, amended: on a successful invocation the template in
    data['template'] is the layout of section 6 filled with [str()] of
    the six fields of the parsed reply -- 'Hook Script:', the script in
    double quotes, an empty line, 'Visual Elements:', one '- <visual>'
    line per element of the visuals (one empty line when there is none),
    an empty line, 'Transitions:' and the transitions, an empty line,
    'Audio:' with its two lines, an empty line, 'Pacing:' and the
    pacing -- with one line break before it, and a line break and twelve
    spaces after it. *)
Theorem template_layout s resp :
  let res := run co rt video_id collection_id prompt s in
  fst res = Returns resp -> status resp = SUCCESS ->
  exists msgs reply template_data
         script visuals_value visuals transitions music sound_effects pacing,
    chats (new_events s (snd res)) = [(msgs, Returns reply)] /\
    json_loads rt (llm_content reply) = Returns template_data /\
    py_getitem rt template_data "script" = Returns script /\
    py_getitem rt template_data "visuals" = Returns visuals_value /\
    py_iter rt visuals_value = Returns visuals /\
    py_getitem rt template_data "transitions" = Returns transitions /\
    py_getitem rt template_data "music" = Returns music /\
    py_getitem rt template_data "sound_effects" = Returns sound_effects /\
    py_getitem rt template_data "pacing" = Returns pacing /\
    data resp =
      {[ lit "template" :=
           PyStr (chr10 ++
                  layout (py_str rt script) (joined_lines (map (py_str rt) visuals))
                         (py_str rt transitions) (py_str rt music)
                         (py_str rt sound_effects) (py_str rt pacing) ++
                  chr10 ++ lit "            ") ]}.
Proof.
  cbn zeta. intros Hresp Hstatus.
  pose proof (run_chat s) as H. cbn zeta in H.
  destruct H as [((e & He) & _)|(t & sc & r & o & Hch & _ & _ & _ & Ho & Hres)].
  { rewrite He in Hresp. injection Hresp as <-. discriminate Hstatus. }
  rewrite Hres in Hresp. destruct Ho as (a & s5 & s6 & Ho).
  destruct o as [resp'|e]; [|injection Hresp as <-; discriminate Hstatus].
  injection Hresp as ->.
  apply reply_behaviour_returns in Ho
    as (reply & template_data & template & -> & _ & Hloads & Hrender & ->).
  apply render_template_returns in Hrender
    as (script & vv & visuals & transitions & music & sfx & pacing
        & E1 & E2 & E3 & E4 & E5 & E6 & E7 & ->).
  exists [mkMsg user (llm_prompt rt prompt t sc)], reply, template_data,
    script, vv, visuals, transitions, music, sfx, pacing.
  by repeat (split; [assumption|]).
Qed.
End InvocationProofs.

Section SafeCallProofs.
Import Spielberg.
Context {S Args : Type}.
Variable agent_name : pystr.
Variable call : Args -> M S AgentResponse.
Variable logger_exception : pystr -> S -> S.

(** C9: safe_call gives back what the wrapped call returns, unchanged
    and in the state the call left; when the call raises e, safe_call
    returns a response whose result is "error" and whose message is
    str(e); in no case does safe_call itself raise. *)
Theorem safe_call_never_raises (args : Args) (s : S) :
  let res := safe_call agent_name call logger_exception args s in
  (forall resp s', call args s = (Returns resp, s') -> res = (Returns resp, s')) /\
  (forall e s', call args s = (Raises e, s') ->
                fst res = Returns {| result := lit "error"; message := exc_str e; data := ∅ |}) /\
  (exists resp, fst res = Returns resp).
Proof.
  cbn zeta. unfold safe_call, try_except, bind, modify, ret.
  destruct (call args s) as [[resp|e] s1]; repeat split;
    try (intros ? ? [= <- <-]; reflexivity); try discriminate; cbn; eauto.
Qed.
End SafeCallProofs.

(** ** The claims on examples *)

(** C1 as stated does not hold. With the transcript at hand, a scene
    listing that raises is not tolerated: the exception reaches the except
    clause of [run], no prompt is sent and the response is ERROR. And when
    scene creation raises after an empty listing, the response still depends
    on the LLM: here it answers with a non-success status and the response
    is ERROR. *)
Lemma scene_listing_failure_is_fatal :
  (acquired_transcript (events_of listing_fails) = Some (lit "Welcome back to the show.") /\
   scene_listings (events_of listing_fails)
   = [Raises (unavailable "cannot list scene indexes")] /\
   chats (events_of listing_fails) = [] /\
   exists resp, response_of listing_fails = Returns resp /\ status resp = ERROR) /\
  (acquired_transcript (events_of creation_fails_llm_refuses)
   = Some (lit "Welcome back to the show.") /\
   scene_listings (events_of creation_fails_llm_refuses) = [Returns []] /\
   scene_creations (events_of creation_fails_llm_refuses)
   = [Raises (unavailable "scene indexing failed")] /\
   exists resp, response_of creation_fails_llm_refuses = Returns resp /\ status resp = ERROR).
Proof.
  split.
  - do 3 (split; [vm_compute; reflexivity|]).
    eexists. split; vm_compute; reflexivity.
  - do 3 (split; [vm_compute; reflexivity|]).
    eexists. split; vm_compute; reflexivity.
Qed.

(** C1, amended, on the scenario in which scene creation raises. *)
Lemma scene_creation_failure_tolerated_witness :
  acquired_transcript (events_of creation_fails) = Some (lit "Welcome back to the show.") /\
  scene_listings (events_of creation_fails) = [Returns []] /\
  scene_creations (events_of creation_fails) = [Raises (unavailable "scene indexing failed")] /\
  creation_failed (Raises (unavailable "scene indexing failed")) /\
  exists msgs r, chats (events_of creation_fails) = [(msgs, r)].
Proof.
  assert (acquired_transcript (events_of creation_fails)
          = Some (lit "Welcome back to the show.")) as H1 by (vm_compute; reflexivity).
  assert (scene_listings (events_of creation_fails) = [Returns []]) as H2
      by (vm_compute; reflexivity).
  assert (scene_creations (events_of creation_fails)
          = [Raises (unavailable "scene indexing failed")]) as H3 by (vm_compute; reflexivity).
  assert (creation_failed (Raises (unavailable "scene indexing failed"))) as H4 by exact I.
  do 4 (split; [assumption|]).
  destruct (scene_creation_failure_tolerated scripted sample_runtime
              (lit "v1") (lit "c1") (lit "punchy") (fresh creation_fails)
              (lit "Welcome back to the show.")
              (Raises (unavailable "scene indexing failed")) H1 H2 H3 H4) as (r & Hchat & _).
  eexists _, r. exact Hchat.
Defined.

(** C2 on a transcript that is there after indexing, and on one that is
    not. *)
Lemma transcript_fallback_is_single_shot_witness :
  (get_transcript scripted (lit "v1") (world (fresh transcript_after_indexing))
   = (Raises (unavailable "no transcript"),
      with_transcripts [Returns (lit "Welcome back to the show.")] all_fine) /\
   exists r_index retry,
     transcript_fetches
       (new_events (fresh transcript_after_indexing)
          (snd (_get_transcript scripted (lit "v1") (fresh transcript_after_indexing))))
     = Raises (unavailable "no transcript") :: transcript_fetches retry /\
     spoken_word_indexings
       (new_events (fresh transcript_after_indexing)
          (snd (_get_transcript scripted (lit "v1") (fresh transcript_after_indexing))))
     = r_index :: spoken_word_indexings retry) /\
  (transcript_fetches (events_of no_transcript)
   = [Raises (unavailable "no transcript"); Raises (unavailable "still no transcript")] /\
   exists resp, response_of no_transcript = Returns resp /\ status resp = ERROR).
Proof.
  destruct (transcript_fallback_is_single_shot scripted sample_runtime
              (lit "v1") (lit "c1") (lit "punchy")) as [Hfallback Hfatal].
  split.
  - assert (get_transcript scripted (lit "v1") (world (fresh transcript_after_indexing))
            = (Raises (unavailable "no transcript"),
               with_transcripts [Returns (lit "Welcome back to the show.")] all_fine)) as H1
        by reflexivity.
    split; [exact H1|].
    destruct (Hfallback _ _ _ H1) as (r_index & w2 & retry & p1 & p2 & _ & -> & _).
    exists r_index, retry. split; reflexivity.
  - assert (transcript_fetches (events_of no_transcript)
            = [Raises (unavailable "no transcript");
               Raises (unavailable "still no transcript")]) as H1 by (vm_compute; reflexivity).
    split; [exact H1|].
    destruct (Hfatal _ _ _ H1) as (resp & Hresp & Hstatus & _).
    exists resp. split; assumption.
Defined.

(** When indexing itself raises, its exception is the one that
    propagates: the transcript is fetched once, and the response is ERROR. *)
Example indexing_failure_is_fatal :
  transcript_fetches (events_of indexing_fails) = [Raises (unavailable "no transcript")] /\
  spoken_word_indexings (events_of indexing_fails)
  = [Raises (unavailable "speech indexing failed")] /\
  response_of indexing_fails
  = Returns {| status := ERROR;
               message := lit "Agent failed with error: speech indexing failed";
               data := ∅ |}.
Proof. do 2 (split; [vm_compute; reflexivity|]). vm_compute. reflexivity. Qed.


(** C4 on the scenario in which everything works. *)
Lemma prompt_embeds_inputs_witness :
  In ([mkMsg user (llm_prompt sample_runtime (lit "punchy")
                     (lit "Welcome back to the show.") (Some scenes3))],
      Returns (mkLLMResponse true reply_text))
     (chats (events_of all_fine)) /\
  acquired_transcript (events_of all_fine) = Some (lit "Welcome back to the show.") /\
  acquired_scenes (events_of all_fine) = Some scenes3.
Proof.
  assert (In ([mkMsg user (llm_prompt sample_runtime (lit "punchy")
                             (lit "Welcome back to the show.") (Some scenes3))],
              Returns (mkLLMResponse true reply_text))
             (chats (events_of all_fine))) as H1 by (vm_compute; left; reflexivity).
  split; [exact H1|].
  destruct (prompt_embeds_inputs scripted sample_runtime (lit "v1") (lit "c1") (lit "punchy")
              (fresh all_fine) _ _ H1) as (transcript & Ht & Hmsgs).
  split; vm_compute; reflexivity.
Defined.

(** C5 as stated does not hold: the template does not begin with
    'Hook Script:' nor end with the pacing. It is the layout after a line
    break and before a line break and twelve spaces. And with no visuals
    the text has an empty line where the visual lines would be, which the
    layout with one line per visual has not. *)
Lemma template_is_framed :
  (exists resp template,
      response_of all_fine = Returns resp /\ status resp = SUCCESS /\
      data resp !! lit "template" = Some (PyStr template) /\
      template <> layout (lit "Did you know?")
                         (bullet_lines [lit "Host at the desk"; lit "Guest laughing"])
                         (lit "Hard cut") (lit "Soft synth") (lit "None") (lit "Fast") /\
      template = chr10 ++
                 layout (lit "Did you know?")
                        (bullet_lines [lit "Host at the desk"; lit "Guest laughing"])
                        (lit "Hard cut") (lit "Soft synth") (lit "None") (lit "Fast") ++
                 chr10 ++ lit "            ") /\
  (exists resp template,
      response_of no_visuals = Returns resp /\ status resp = SUCCESS /\
      data resp !! lit "template" = Some (PyStr template) /\
      template <> chr10 ++
                  layout (lit "Hi") (bullet_lines []) (lit "Cut") (lit "Jazz") (lit "None")
                         (lit "Slow") ++
                  chr10 ++ lit "            ").
Proof.
  split.
  - do 2 eexists. do 3 (split; [vm_compute; reflexivity|]).
    split; [|vm_compute; reflexivity].
    apply (bool_decide_eq_false_1 _). vm_compute. reflexivity.
  - do 2 eexists. do 3 (split; [vm_compute; reflexivity|]).
    apply (bool_decide_eq_false_1 _). vm_compute. reflexivity.
Qed.

(** C5, amended, on the scenario in which everything works. *)
Lemma template_layout_witness :
  exists resp,
    response_of all_fine = Returns resp /\ status resp = SUCCESS /\
    exists template, data resp = {[ lit "template" := PyStr template ]}.
Proof.
  assert (exists resp, response_of all_fine = Returns resp /\ status resp = SUCCESS)
    as (resp & H1 & H2) by (eexists; split; vm_compute; reflexivity).
  exists resp. do 2 (split; [assumption|]).
  destruct (template_layout scripted sample_runtime (lit "v1") (lit "c1") (lit "punchy")
              (fresh all_fine) resp H1 H2)
    as (msgs & reply & template_data & script & vv & visuals & transitions & music
        & sound_effects & pacing & _ & _ & _ & _ & _ & _ & _ & _ & _ & Hdata).
  eexists. exact Hdata.
Defined.

(** C6 as stated does not hold: when the construction of the content
    object raises, the invocation returns ERROR and no message at all, hence
    no terminal one, reaches the sink. *)
Lemma no_terminal_without_content :
  content_constructions (events_of no_content)
  = [Raises (mkExc (OtherC (lit "ValidationError")) (lit "invalid content"))] /\
  sink (events_of no_content) = [] /\
  terminals (events_of no_content) = [] /\
  exists resp, response_of no_content = Returns resp /\ status resp = ERROR.
Proof.
  do 3 (split; [vm_compute; reflexivity|]). eexists. split; vm_compute; reflexivity.
Qed.

(** C7 on the scenario in which the LLM answers with a non-success status. *)
Lemma llm_failure_is_an_error_witness :
  In ([mkMsg user (llm_prompt sample_runtime (lit "punchy")
                     (lit "Welcome back to the show.") (Some scenes3))],
      Returns (mkLLMResponse false []))
     (chats (events_of llm_refuses)) /\
  llm_status (mkLLMResponse false []) = false /\
  exists resp, response_of llm_refuses = Returns resp /\ status resp = ERROR.
Proof.
  assert (In ([mkMsg user (llm_prompt sample_runtime (lit "punchy")
                             (lit "Welcome back to the show.") (Some scenes3))],
              Returns (mkLLMResponse false []))
             (chats (events_of llm_refuses))) as H1 by (vm_compute; left; reflexivity).
  assert (llm_status (mkLLMResponse false []) = false) as H2 by reflexivity.
  do 2 (split; [assumption|]).
  destruct (llm_failure_is_an_error scripted sample_runtime (lit "v1") (lit "c1")
              (lit "punchy") (fresh llm_refuses) _ _ H1 H2) as (resp & Hresp & Hstatus & _).
  exists resp. split; assumption.
Defined.

(** C8 on six fields, and on the same in another order and among
    others, rendered in two different sessions. *)
Lemma rendering_is_pure_witness :
  fst (render_template sample_runtime (PyDict Cases.spelled_fields) (fresh all_fine))
  = fst (render_template sample_runtime (PyDict Cases.shuffled_fields) drafted).
Proof.
  destruct (rendering_is_pure (W:=Scenario) sample_runtime) as [render H].
  rewrite (proj1 (H (PyDict Cases.spelled_fields) (fresh all_fine) (fresh all_fine))).
  rewrite (proj1 (H (PyDict Cases.shuffled_fields) drafted drafted)).
  cbn [fst]. f_equal.
Defined.

(** C9 on an agent whose call returns, and on one whose call raises. *)
Lemma safe_call_never_raises_witness :
  toy_call false [] = (Returns (Spielberg.mkResponse Spielberg.SUCCESS (lit "done") ∅), []) /\
  toy_call true [] = (Raises (mkExc ExceptionC (lit "boom")), []) /\
  toy_safe_call false []
  = (Returns (Spielberg.mkResponse Spielberg.SUCCESS (lit "done") ∅), []) /\
  fst (toy_safe_call true [])
  = Returns (Spielberg.mkResponse (lit "error") (lit "boom") ∅).
Proof.
  assert (toy_call false []
          = (Returns (Spielberg.mkResponse Spielberg.SUCCESS (lit "done") ∅), [])) as H1
      by reflexivity.
  assert (toy_call true [] = (Raises (mkExc ExceptionC (lit "boom")), [])) as H2
      by reflexivity.
  do 2 (split; [assumption|]). split.
  - exact (proj1 (safe_call_never_raises (lit "toy") toy_call (fun text log => log ++ [text])
                    false []) _ _ H1).
  - exact (proj1 (proj2 (safe_call_never_raises (lit "toy") toy_call
                           (fun text log => log ++ [text]) true [])) _ _ H2).
Defined.

(** C10 on a content object that carries a text, and on the scenario in
    which the LLM answers with a non-success status. *)
Lemma error_path_keeps_text_witness :
  (local_text_content drafted = Some 0%nat /\
   heap drafted !! 0%nat
   = Some (mkTextContent agent_name progress (lit "Analyzing video content...")
             (lit "a draft")) /\
   heap (snd (run_handler (mkExc ExceptionC (lit "boom")) drafted)) !! 0%nat
   = Some (mkTextContent agent_name error (lit "Error generating hook template: boom")
             (lit "a draft"))) /\
  (exists resp,
      response_of llm_refuses = Returns resp /\ status resp = ERROR /\
      Forall (fun snap => tc_text <$> own_content snap = Some [])
             (terminals (events_of llm_refuses))).
Proof.
  destruct (error_path_keeps_text scripted sample_runtime (lit "v1") (lit "c1") (lit "punchy"))
    as [Hframe Hrun].
  split.
  - assert (local_text_content drafted = Some 0%nat) as H1 by reflexivity.
    assert (heap drafted !! 0%nat
            = Some (mkTextContent agent_name progress (lit "Analyzing video content...")
                      (lit "a draft"))) as H2 by reflexivity.
    do 2 (split; [assumption|]).
    exact (proj1 (Hframe (mkExc ExceptionC (lit "boom")) drafted _ _ H1 H2)).
  - assert (exists resp, response_of llm_refuses = Returns resp /\ status resp = ERROR)
      as (resp & H1 & H2) by (eexists; split; vm_compute; reflexivity).
    exists resp. do 2 (split; [assumption|]). exact (Hrun _ _ H1 H2).
Defined.


(** * Further properties of the agents *)

Import Pipeline Describe Fields Cases.

Section Courses.
Context {W : Type} (co : Collaborators W) (rt : Runtime).
Variables (video_id collection_id prompt : pystr).
Implicit Types (s : State W) (e : Exception).

Local Arguments lit : simpl never.
Local Arguments llm_prompt : simpl never.
Local Arguments render_template : simpl never.
Local Arguments _get_transcript : simpl never.
Local Arguments _get_scenes : simpl never.

(** Every course of the preparation, of the two acquisitions and of the
    reply, one by one. *)
Ltac invert_courses :=
  repeat match goal with
    | H : prepared _ _ _ _ |- _ => destruct H
    | H : asked _ _ _ _ _ _ _ _ _ _ |- _ => inversion H; subst; clear H
    | H : transcript_behaviour _ _ _ _ _ |- _ => inversion H; subst; clear H
    | H : scenes_behaviour _ _ _ _ _ |- _ => inversion H; subst; clear H
    | H : reply_behaviour _ _ _ _ _ _ |- _ => inversion H; subst; clear H
    | H : match ?r with Returns _ => _ | Raises _ => _ end = _ |- _ =>
        destruct r; try discriminate H; injection H as H; subst
    | H : _ = match ?r with Returns _ => _ | Raises _ => _ end |- _ =>
        destruct r; try discriminate H; injection H as H; subst
    end.

Ltac lists_computed :=
  cbn; repeat first [rewrite <- app_assoc | progress (cbn [app])]; reflexivity.

(** Every course of an invocation, with the events it leaves. *)
Ltac every_course s :=
  cbn zeta; rewrite run_unfold;
  let Hb := fresh "Hb" in
  pose proof (run_body_behaves co rt video_id collection_id prompt (entered s)) as Hb;
  destruct (run_body co rt video_id collection_id prompt (entered s)) as [? ?];
  cbn [fst snd] in Hb;
  destruct Hb; invert_courses;
  try rewrite run_handler_eq; cbn [fst snd];
  try erewrite new_events_app by lists_computed.

(** X1: an invocation constructs one content object and calls each
    collaborator a bounded number of times. *)
Theorem run_call_budget s :
  let c := calls (new_events s (snd (run co rt video_id collection_id prompt s))) in
  (content_objects c = 1 /\ videodb_tools c <= 1 /\ transcript_calls c <= 2 /\
   indexing_calls c <= 1 /\ listing_calls c <= 1 /\ creation_calls c <= 1 /\
   scene_calls c <= 1 /\ chat_calls c <= 1 /\ publications c <= 1)%nat.
Proof. every_course s; cbn; lia. Qed.

(** X2: a stage is reached only after the stages before it went well. *)
Theorem stages_run_in_order s :
  let evs := new_events s (snd (run co rt video_id collection_id prompt s)) in
  let c := calls evs in
  ((0 < videodb_tools c)%nat -> content_constructions evs = [Returns tt]) /\
  ((0 < transcript_calls c)%nat -> tool_constructions evs = [Returns tt]) /\
  ((0 < indexing_calls c)%nat ->
   exists e rest, transcript_fetches evs = Raises e :: rest) /\
  ((0 < listing_calls c)%nat -> is_Some (acquired_transcript evs)) /\
  ((0 < creation_calls c)%nat -> scene_listings evs = [Returns []]) /\
  ((0 < scene_calls c)%nat ->
   (exists first rest, scene_listings evs = [Returns (first :: rest)]) \/
   (exists ix, scene_creations evs = [Returns (Some ix)])) /\
  ((0 < chat_calls c)%nat ->
   (exists l, scene_listings evs = [Returns l]) /\
   forall e, In (Raises e) (scene_fetches evs) -> scene_listings evs = [Returns []]) /\
  ((0 < publications c)%nat -> content_constructions evs = [Returns tt]).
Proof.
  every_course s; cbn; repeat split; intros; try lia; try done; eauto;
    match goal with
    | H : _ \/ False |- _ => destruct H as [H|[]]; discriminate H
    | H : False |- _ => destruct H
    end.
Qed.

(** X3: the progress notes of an invocation are appended to the action log in
    the order of the code, each at most once, and nothing else is. *)
Theorem progress_notes_in_order s :
  exists notes,
    om_actions (snd (run co rt video_id collection_id prompt s)) = om_actions s ++ notes /\
    sublist notes progress_notes.
Proof.
  every_course s;
    (first [ exists []; split; [cbn; by rewrite ?app_nil_r|]
           | eexists; split; [lists_computed|] ]);
    unfold progress_notes;
    repeat first [apply sublist_nil | apply sublist_skip | apply sublist_cons].
Qed.
(** X4: the except clause writes to the log exactly when the invocation
    returns ERROR: one entry, 'Error in hook_template'. Nothing else is
    logged at that level. *)
Theorem exception_logged_iff_error s :
  let res := run co rt video_id collection_id prompt s in
  exists resp,
    fst res = Returns resp /\
    logged_exceptions (new_events s (snd res))
    = match status resp with
      | ERROR => [lit "Error in hook_template"]
      | SUCCESS => []
      end.
Proof.
  every_course s; (eexists; split; [reflexivity|]); cbn; reflexivity.
Qed.

(** X5: every note is flushed as soon as it is appended: once the content
    object is constructed, the progress messages show the action log as it
    was on entry, then with one note more each time, up to all the notes
    of the invocation; and the terminal message shows the action log as
    the invocation leaves it. *)
Theorem every_note_is_flushed s :
  let s' := snd (run co rt video_id collection_id prompt s) in
  let evs := new_events s s' in
  exists notes,
    om_actions s' = om_actions s ++ notes /\
    flushed_actions evs
    = match content_constructions evs with
      | [Returns tt] =>
          map (fun k => om_actions s ++ take k notes) (seq 0 (S (length notes)))
      | _ => []
      end /\
    Forall (fun snap => snap_actions snap = om_actions s') (terminals evs).
Proof.
  every_course s;
    (first [ exists []; split; [cbn; by rewrite ?app_nil_r|]
           | eexists; split; [lists_computed|] ]);
    (split; [cbn; rewrite ?app_nil_r; lists_computed|]);
    cbn; repeat first [apply Forall_nil_2 | apply Forall_cons_2]; lists_computed.
Qed.
End Courses.


Section Acquisitions.
Context {W : Type} (co : Collaborators W).
Variable video_id : pystr.
Implicit Types (s : State W) (e : Exception).

Local Arguments lit : simpl never.

Ltac events_computed :=
  erewrite new_events_app
    by (cbn; repeat first [rewrite <- app_assoc | progress (cbn [app])]; reflexivity).

(** X6: spoken-word indexing is triggered exactly when the first fetch of
    the transcript raises. When the first fetch returns, its transcript is
    the result, nothing is indexed or fetched again, and the one note added
    to the action log is 'Processing video transcript...'. *)
Theorem indexing_only_after_a_failed_fetch s :
  let res := _get_transcript co video_id s in
  let evs := new_events s (snd res) in
  match fst (get_transcript co video_id (world s)) with
  | Returns t =>
      fst res = Returns t /\ transcript_fetches evs = [Returns t] /\
      spoken_word_indexings evs = [] /\
      om_actions (snd res) = om_actions s ++ [lit "Processing video transcript..."]
  | Raises e =>
      exists r rest,
        spoken_word_indexings evs = [r] /\ transcript_fetches evs = Raises e :: rest /\
        om_actions (snd res)
        = om_actions s ++ [lit "Processing video transcript..."; lit "Indexing video speech..."]
  end.
Proof.
  cbn zeta. pose proof (_get_transcript_behaves co video_id s) as Hb.
  destruct (_get_transcript co video_id s) as [o s']. cbn [fst snd] in *.
  destruct Hb as [t w1 E1|e1 w1 e2 w2 E1 E2|e1 w1 w2 r w3 E1 E2 E3];
    rewrite E1; cbn [fst]; events_computed.
  - done.
  - by exists (Raises e2), [].
  - by exists (Returns tt), [r].
Qed.

(** X7: when no scene index is listed, scene acquisition does not raise,
    whatever creation does: it tries to create an index once, and returns
    the scenes of the created index when creation and the fetch both
    return, and None otherwise, after a warning in the log. *)
Theorem empty_listing_never_raises s w1 :
  list_scene_index co video_id (world s) = (Returns [], w1) ->
  let res := _get_scenes co video_id s in
  let evs := new_events s (snd res) in
  exists sc rc,
    fst res = Returns sc /\ scene_creations evs = [rc] /\
    match sc with
    | Some scenes =>
        exists ix,
          rc = Returns (Some ix) /\
          In (EvGetSceneIndex video_id (scene_index_id ix) (Returns scenes)) evs
    | None =>
        (creation_failed rc \/ exists e, scene_fetches evs = [Raises e]) /\
        exists text, In (EvLog WARNING text) evs
    end.
Proof.
  intros H1. cbn zeta. pose proof (_get_scenes_behaves co video_id s) as Hb.
  destruct (_get_scenes co video_id s) as [o s']. cbn [fst snd] in *.
  destruct Hb; rewrite H1 in *; try discriminate; events_computed; cbn.
  - do 2 eexists. do 2 (split; [reflexivity|]). eexists. split; [reflexivity|]. tauto.
  - do 2 eexists. do 2 (split; [reflexivity|]). split; [eauto|]. eexists. tauto.
  - do 2 eexists. do 2 (split; [reflexivity|]). split; [by left|]. eexists. tauto.
  - do 2 eexists. do 2 (split; [reflexivity|]). split; [by left|]. eexists. tauto.
Qed.

(** X8: when scene indexes are listed, none is created: the scenes of the
    first listed index are fetched, once, and that fetch's result, scenes
    or an exception, is the result of the procedure. *)
Theorem listed_index_is_used s first rest w1 :
  list_scene_index co video_id (world s) = (Returns (first :: rest), w1) ->
  let res := _get_scenes co video_id s in
  let evs := new_events s (snd res) in
  scene_creations evs = [] /\
  exists r w2,
    get_scene_index co video_id (scene_index_id first) w1 = (r, w2) /\
    scene_fetches evs = [r] /\
    In (EvGetSceneIndex video_id (scene_index_id first) r) evs /\
    fst res = match r with Returns scenes => Returns (Some scenes) | Raises e => Raises e end /\
    om_actions (snd res) = om_actions s ++ [lit "Analyzing video scenes..."].
Proof.
  intros H1. cbn zeta. pose proof (_get_scenes_behaves co video_id s) as Hb.
  destruct (_get_scenes co video_id s) as [o s']. cbn [fst snd] in *.
  destruct Hb as [| first' rest' w1' r w2 E1 E2 | | | |];
    rewrite H1 in *; try discriminate.
  injection E1 as <- <- <-. events_computed. cbn. split; [done|].
  exists r, w2. split; [exact E2|]. split; [done|]. split; [tauto|]. done.
Qed.
(** X9: when transcript acquisition raises, the exception is the one of
    spoken-word indexing or the one of the second fetch: the exception of
    the first fetch is never the one that propagates. *)
Theorem transcript_failure_is_the_last_one s e :
  let res := _get_transcript co video_id s in
  let evs := new_events s (snd res) in
  fst res = Raises e ->
  exists e1,
    (transcript_fetches evs = [Raises e1] /\ spoken_word_indexings evs = [Raises e]) \/
    (transcript_fetches evs = [Raises e1; Raises e] /\
     spoken_word_indexings evs = [Returns tt]).
Proof.
  cbn zeta. pose proof (_get_transcript_behaves co video_id s) as Hb.
  destruct (_get_transcript co video_id s) as [o s']. cbn [fst snd] in *.
  intros ->. inversion Hb as [|e1 w1 e2 w2 E1 E2|e1 w1 w2 r w3 E1 E2 E3]; subst;
    events_computed; exists e1; [by left|by right].
Qed.

(** X10: scene acquisition writes a warning to the log exactly when it
    returns None, and then exactly one. *)
Theorem warning_iff_no_scenes s :
  let res := _get_scenes co video_id s in
  let evs := new_events s (snd res) in
  match fst res with
  | Returns None => exists text, warnings evs = [text]
  | _ => warnings evs = []
  end.
Proof.
  cbn zeta. pose proof (_get_scenes_behaves co video_id s) as Hb.
  destruct (_get_scenes co video_id s) as [o s']. cbn [fst snd] in *.
  destruct Hb as [| ? ? ? [l|e] | | | |]; events_computed; cbn; eauto.
Qed.
End Acquisitions.

Section Outcomes.
Context {W : Type} (co : Collaborators W) (rt : Runtime).
Variables (video_id collection_id prompt : pystr).
Implicit Types (s : State W) (e : Exception).

Local Arguments lit : simpl never.
Local Arguments llm_prompt : simpl never.
Local Arguments render_template : simpl never.

Ltac three_ways s :=
  cbn zeta;
  destruct (run_cases co rt video_id collection_id prompt s)
    as [(e & w1 & _ & Hres)
       |(w1 & w' & acts & evs & Hall & [(e & _ & Hres)|(tpl & Hbody & Hres)])];
  cbn zeta in *; try rewrite Hbody in Hres; rewrite Hres; cbn [fst snd].

Lemma earlier_lookup (h : list TextContent) tc b :
  (b < length h)%nat -> (h ++ [tc]) !! b = h !! b.
Proof. intros Hb. by apply lookup_app_l. Qed.

(** X11: an invocation leaves the content objects that were there before it
    as they are, and the content list of the output message as it is but
    for the one object it appends, which is new and is the only one it
    makes. *)
Theorem run_keeps_earlier_content s :
  let s' := snd (run co rt video_id collection_id prompt s) in
  (forall b, (b < length (heap s))%nat -> heap s' !! b = heap s !! b) /\
  ((heap s' = heap s /\ om_content s' = om_content s) \/
   (length (heap s') = S (length (heap s)) /\
    om_content s' = om_content s ++ [length (heap s)])).
Proof.
  three_ways s; unfold reported, finished, extend, started, advance, entered;
    cbn [heap om_content].
  - split; [done|]. by left.
  - split.
    + intros b Hb. rewrite !list_lookup_alter_ne by lia. by apply earlier_lookup.
    + right. rewrite !length_alter, length_app. cbn. split; [lia|done].
  - split.
    + intros b Hb. rewrite !list_lookup_alter_ne by lia. by apply earlier_lookup.
    + right. rewrite !length_alter, length_app. cbn. split; [lia|done].
Qed.

(** X12: a response with status SUCCESS carries the template that was
    published: the terminal message shows the agent's content object with
    status success, the status message 'Hook template generated
    successfully' and as its text the very template of the response's
    data, which is the text the object is left with. *)
Theorem success_publishes_the_returned_template s resp :
  let res := run co rt video_id collection_id prompt s in
  let evs := new_events s (snd res) in
  fst res = Returns resp -> status resp = SUCCESS ->
  exists template final,
    data resp = {[ lit "template" := PyStr template ]} /\
    message resp = lit "Agent hook_template completed successfully." /\
    terminals evs = [final] /\
    own_content final
    = Some (mkTextContent (lit "hook_template") success
              (lit "Hook template generated successfully") template) /\
    heap (snd res) !! length (heap s) = own_content final.
Proof.
  three_ways s; intros [= <-] Hst; try discriminate Hst.
  destruct (finished_events tpl s w1 w' acts evs) as (final & -> & Hown).
  destruct (sink_progress _ _ Hall) as (pushes & _ & _ & Ht & _).
  exists tpl, final. do 2 (split; [reflexivity|]).
  split; [|split; [exact Hown|]].
  - unfold terminals in *. rewrite !omap_app, Ht. reflexivity.
  - rewrite Hown. unfold finished, extend, started. cbn [heap].
    rewrite !list_lookup_alter.
    rewrite list_lookup_middle by done. rewrite !decide_True by done. reflexivity.
Qed.

(** X13: the data of the response has a 'template' entry exactly when the
    status is SUCCESS, and is empty exactly when the status is ERROR. *)
Theorem template_entry_iff_success s :
  exists resp,
    fst (run co rt video_id collection_id prompt s) = Returns resp /\
    (status resp = SUCCESS <-> is_Some (data resp !! lit "template")) /\
    (status resp = ERROR <-> data resp = ∅).
Proof.
  three_ways s; eexists; (split; [reflexivity|]); cbn; split; split;
    try done; try (by intros [? [=]]).
Qed.

(** X14: the response follows from the reply of the LLM alone: a call that
    raised, a reply with a non-success status, a reply that json.loads
    rejects and one that cannot be rendered each give the ERROR response
    with the exception's text, and a reply that renders gives SUCCESS with
    the rendered text. *)
Theorem response_follows_the_reply s msgs r :
  let res := run co rt video_id collection_id prompt s in
  In (msgs, r) (chats (new_events s (snd res))) ->
  fst res
  = Returns
      match r with
      | Raises e => failure_response e
      | Returns reply =>
          if llm_status reply then
            match json_loads rt (llm_content reply) with
            | Raises e => failure_response e
            | Returns template_data =>
                match fst (render_template rt template_data s) with
                | Raises e => failure_response e
                | Returns template => success_response template
                end
            end
          else failure_response generation_failure
      end.
Proof.
  intros res Hin.
  destruct (run_chat co rt video_id collection_id prompt s)
    as [(_ & Hch & _)|(t & sc & r' & o & Hch & _ & _ & _ & Ho & Hres)];
    fold res in Hch; rewrite Hch in Hin; [destruct Hin|].
  destruct Hin as [[= <- <-]|[]]. fold res in Hres. rewrite Hres.
  destruct Ho as (a & s5 & s6 & Ho).
  inversion Ho as [e0|reply Hs|reply e0 Hs Hj|reply d e0 Hs Hj Hr|reply d tpl Hs Hj Hr];
    subst; try rewrite Hs; try rewrite Hj; try reflexivity.
  all: destruct (render_template_pure (W:=W) rt d) as (o' & Ho');
    rewrite Ho' in Hr; rewrite Ho'; cbn [fst]; by injection Hr as ->.
Qed.

(** X15: until the terminal message, every flush shows the agent's content
    object as it was constructed: in progress, with the status message
    'Analyzing video content...' and no text. No template, whole or
    partial, reaches the sink before publication. *)
Theorem flushes_show_no_text s snap :
  let evs := new_events s (snd (run co rt video_id collection_id prompt s)) in
  In (Progress snap) (sink evs) ->
  own_content snap
  = Some (mkTextContent (lit "hook_template") progress (lit "Analyzing video content...") []).
Proof.
  three_ways s.
  - rewrite unconstructed_events. intros [].
  - destruct (reported_events e s w1 w' acts evs) as (final & -> & _).
    destruct (sink_progress _ _ Hall) as (pushes & Hs & Hp & _ & _).
    unfold sink in *. rewrite !omap_app, Hs. cbn.
    intros [[= <-]|Hin]; [apply own_content_started|].
    apply in_app_or in Hin as [Hin|[[=]|[]]].
    apply in_map_iff in Hin as (snap' & [= ->] & Hin).
    rewrite Forall_forall in Hp. apply list_elem_of_In in Hin. unfold own_content. rewrite (Hp _ Hin).
    apply own_content_started.
  - destruct (finished_events tpl s w1 w' acts evs) as (final & -> & _).
    destruct (sink_progress _ _ Hall) as (pushes & Hs & Hp & _ & _).
    unfold sink in *. rewrite !omap_app, Hs. cbn.
    intros [[= <-]|Hin]; [apply own_content_started|].
    apply in_app_or in Hin as [Hin|[[=]|[]]].
    apply in_map_iff in Hin as (snap' & [= ->] & Hin).
    rewrite Forall_forall in Hp. apply list_elem_of_In in Hin. unfold own_content. rewrite (Hp _ Hin).
    apply own_content_started.
Qed.
End Outcomes.

Section Rendering.
Context {W : Type} (rt : Runtime).
Implicit Types (s : State W) (e : Exception) (items : list (pystr * pyval)).

Local Arguments lit : simpl never.

Ltac missing before key :=
  exists before, key, (drop (S (length before)) template_fields);
  split; [reflexivity|];
  split; [repeat (apply Forall_cons; split; [by eexists|]); apply Forall_nil_2|];
  split; [assumption|reflexivity].

Lemma Raises_inj {A} (e e' : Exception) : @Raises A e = Raises e' -> e = e'.
Proof. congruence. Qed.

Lemma py_iter_returns v :
  (exists l, py_iter rt v = Returns l) <-> py_iterable v = true.
Proof. destruct v; cbn; split; intros H; try done; try (by destruct H); eauto. Qed.

Lemma py_iter_raises v e :
  py_iter rt v = Raises e -> py_iterable v = false /\ e = mkExc TypeErrorC (not_iterable rt v).
Proof. destruct v; cbn; intros [=]; done. Qed.

(** X16: rendering returns exactly when the parsed reply is a dict that has
    all six keys and whose 'visuals' can be iterated over. *)
Theorem rendering_returns_iff template_data s :
  (exists template, render_template rt template_data s = (Returns template, s)) <->
  exists items visuals,
    template_data = PyDict items /\
    Forall (fun key => is_Some (dict_get (lit key) items)) template_fields /\
    dict_get (lit "visuals") items = Some visuals /\
    py_iterable visuals = true.
Proof.
  split.
  - intros [template H]. apply render_template_returns in H
      as (v1 & v2 & l & v4 & v5 & v6 & v7 & H1 & H2 & H3 & H4 & H5 & H6 & H7 & _).
    destruct template_data as [| | | | |?|items]; try discriminate H1.
    unfold py_getitem in *. exists items, v2.
    destruct (dict_get (lit "script") items) eqn:E1; [|discriminate].
    destruct (dict_get (lit "visuals") items) eqn:E2; [|discriminate].
    destruct (dict_get (lit "transitions") items) eqn:E4; [|discriminate].
    destruct (dict_get (lit "music") items) eqn:E5; [|discriminate].
    destruct (dict_get (lit "sound_effects") items) eqn:E6; [|discriminate].
    destruct (dict_get (lit "pacing") items) eqn:E7; [|discriminate].
    injection H2 as ->.
    split; [done|]. split; [|split; [done|apply py_iter_returns; eauto]].
    unfold template_fields.
    repeat (apply Forall_cons; split; [by eexists|]). apply Forall_nil_2.
  - intros (items & visuals & -> & Hall & Hv & Hit).
    unfold template_fields in Hall.
    repeat match goal with
           | H : Forall _ (_ :: _) |- _ => apply Forall_cons in H as [[? ?] H]
           end.
    apply py_iter_returns in Hit as [l Hl].
    unfold render_template, bind, lift, ret, py_getitem.
    repeat match goal with H : dict_get _ _ = Some _ |- _ => rewrite H; clear H end.
    rewrite Hl. eauto.
Qed.

(** X17: when rendering raises: on a reply that is not a dict, a TypeError;
    on a dict, a KeyError that names the first key the template reads and
    the dict has not, or, once 'script' and 'visuals' are read, a
    TypeError for 'visuals' that cannot be iterated over. *)
Theorem rendering_failures template_data s e :
  fst (render_template rt template_data s) = Raises e ->
  match template_data with
  | PyDict items =>
      (exists before key after,
          template_fields = before ++ key :: after /\
          Forall (fun k => is_Some (dict_get (lit k) items)) before /\
          dict_get (lit key) items = None /\
          e = mkExc KeyErrorC (lit "'" ++ lit key ++ lit "'")) \/
      (exists visuals,
          is_Some (dict_get (lit "script") items) /\
          dict_get (lit "visuals") items = Some visuals /\
          py_iterable visuals = false /\
          e = mkExc TypeErrorC (not_iterable rt visuals))
  | _ => e = mkExc TypeErrorC (not_subscriptable rt template_data)
  end.
Proof.
  intros H. unfold render_template, bind, lift, ret, py_getitem in H.
  destruct template_data as [| | | | |?|items];
    try (cbn [fst] in H; apply Raises_inj in H; by subst e).
  destruct (dict_get (lit "script") items) as [v1|] eqn:E1;
    [|apply Raises_inj in H; subst e; left; missing (@nil string) "script"%string].
  destruct (dict_get (lit "visuals") items) as [v2|] eqn:E2;
    [|apply Raises_inj in H; subst e; left; missing ["script"]%string "visuals"%string].
  destruct (py_iter rt v2) as [l|e'] eqn:E3;
    [|apply Raises_inj in H; subst e'; apply py_iter_raises in E3 as [Hit ->];
      right; exists v2; split; [by eexists|]; done].
  destruct (dict_get (lit "transitions") items) as [v4|] eqn:E4;
    [|apply Raises_inj in H; subst e; left;
      missing ["script"; "visuals"]%string "transitions"%string].
  destruct (dict_get (lit "music") items) as [v5|] eqn:E5;
    [|apply Raises_inj in H; subst e; left;
      missing ["script"; "visuals"; "transitions"]%string "music"%string].
  destruct (dict_get (lit "sound_effects") items) as [v6|] eqn:E6;
    [|apply Raises_inj in H; subst e; left;
      missing ["script"; "visuals"; "transitions"; "music"]%string "sound_effects"%string].
  destruct (dict_get (lit "pacing") items) as [v7|] eqn:E7;
    [discriminate H|].
  apply Raises_inj in H; subst e; left.
  missing ["script"; "visuals"; "transitions"; "music"; "sound_effects"]%string
          "pacing"%string.
Qed.

(** X18: the template reads the six keys and nothing else of the reply: two
    dicts that agree on them, whatever else they hold and in whatever
    order, render alike. *)
Theorem rendering_reads_six_fields items items' s :
  Forall (fun key => dict_get (lit key) items = dict_get (lit key) items') template_fields ->
  render_template rt (PyDict items) s = render_template rt (PyDict items') s.
Proof.
  unfold template_fields. intros Hall.
  repeat match goal with
         | H : Forall _ (_ :: _) |- _ => apply Forall_cons in H as [? H]
         end.
  unfold render_template, bind, lift, ret, py_getitem.
  repeat match goal with H : dict_get _ items = _ |- _ => rewrite H; clear H end.
  reflexivity.
Qed.

(** X19: the 'visuals' of the reply need not be a list for rendering to
    return: text gives one bullet per character, and a dict one per key. *)
Theorem visuals_need_not_be_a_list items s template visuals :
  render_template rt (PyDict items) s = (Returns template, s) ->
  dict_get (lit "visuals") items = Some visuals ->
  exists script transitions music sound_effects pacing,
    template
    = leading ++
      layout script (joined_lines (bullets_of rt visuals))
             transitions music sound_effects pacing ++
      trailing.
Proof.
  intros H Hv. apply render_template_returns in H
    as (v1 & v2 & l & v4 & v5 & v6 & v7 & _ & H2 & H3 & _ & _ & _ & _ & ->).
  unfold py_getitem in H2. rewrite Hv in H2. injection H2 as <-.
  exists (py_str rt v1), (py_str rt v4), (py_str rt v5), (py_str rt v6), (py_str rt v7).
  destruct visuals; try discriminate H3; injection H3 as <-;
    cbn [bullets_of]; rewrite ?map_map; reflexivity.
Qed.
End Rendering.

Section Prompting.
Context (rt : Runtime).

Local Arguments lit : simpl never.

(** X20: what the prompt holds of the transcript is never empty and never
    longer than 1000 characters: it is the placeholder for an empty
    transcript, and otherwise the transcript but for what follows its
    first 1000 characters. *)
Theorem transcript_field_is_bounded transcript :
  (0 < length (transcript_field transcript) <= 1000)%nat /\
  ((transcript = [] /\ transcript_field transcript = lit "No transcript available") \/
   transcript_field transcript ++ drop 1000 transcript = transcript).
Proof.
  destruct transcript as [|c t].
  - split; [|by left]. change (length (transcript_field [])) with 23%nat. lia.
  - split; [|right; apply take_drop].
    unfold transcript_field. rewrite length_take. cbn [length]. lia.
Qed.

(** X21: at most five descriptions reach the prompt, and they are the
    descriptions of the first scenes, in their order. *)
Theorem scenes_field_reads_five scenes :
  (length (first_descriptions scenes) <= 5)%nat /\
  first_descriptions scenes
    `prefix_of` map description (match scenes with Some l => l | None => [] end) /\
  scenes_field rt scenes
  = match first_descriptions scenes with
    | [] => lit "No scenes available"
    | _ :: _ => json_dumps rt (first_descriptions scenes)
    end.
Proof.
  split; [|split].
  - destruct scenes as [l|]; cbn; [|lia].
    rewrite length_map, length_take. lia.
  - destruct scenes as [l|]; cbn; [|done].
    exists (map description (drop 5 l)). by rewrite <- map_app, take_drop.
  - by destruct scenes as [[|sc l]|].
Qed.

(** X22: the prompt depends on the transcript through its first 1000
    characters and on the scenes through the descriptions of the first
    five: inputs that agree on these give the same prompt. *)
Theorem prompt_reads_bounded_inputs prompt t1 t2 sc1 sc2 :
  take 1000 t1 = take 1000 t2 ->
  first_descriptions sc1 = first_descriptions sc2 ->
  llm_prompt rt prompt t1 sc1 = llm_prompt rt prompt t2 sc2.
Proof.
  intros Ht Hs. unfold llm_prompt.
  assert (transcript_field t1 = transcript_field t2) as ->.
  { destruct t1, t2; try done. }
  assert (scenes_field rt sc1 = scenes_field rt sc2) as ->; [|done].
  destruct sc1 as [[|x1 l1]|], sc2 as [[|x2 l2]|]; try done.
  cbn in Hs |- *. by rewrite Hs.
Qed.
End Prompting.

Section Wrapping.
Import Spielberg.
Context {S Args : Type}.
Variables (agent_name outer_name : pystr).
Variable call : Args -> M S AgentResponse.
Variables (logger_exception outer_logger : pystr -> S -> S).

(** X23: wrapping a wrapped call changes nothing: the outer safe_call gets a
    call that does not raise, so it never logs and never replaces the
    response. *)
Theorem safe_call_twice (args : Args) (s : S) :
  safe_call outer_name (safe_call agent_name call logger_exception) outer_logger args s
  = safe_call agent_name call logger_exception args s.
Proof.
  unfold safe_call, try_except, bind, modify, ret.
  by destruct (call args s) as [[resp|e] s1].
Qed.
End Wrapping.

Section Describing.

Local Arguments lit : simpl never.

(** X24: get_parameters returns exactly when the inferred schema has a
    'parameters' entry that is true as a condition, and then returns that
    entry: never None, nor an empty dict. *)
Theorem get_parameters_returns_iff function_json parameters :
  get_parameters function_json = Returns parameters <->
  exists items,
    function_json = Returns items /\
    dict_get (lit "parameters") items = Some parameters /\
    py_truthy parameters = true.
Proof.
  unfold get_parameters, py_get. split.
  - destruct function_json as [items|e]; [|done]. intros H. exists items.
    destruct (dict_get (lit "parameters") items) as [p|]; [|done].
    destruct (py_truthy p) eqn:E; [|done]. apply Returns_inj in H. by subst p.
  - intros (items & -> & -> & ->). done.
Qed.

(** X25: when get_parameters raises, it is with the exception of the
    inference itself or, when the schema has no usable 'parameters'
    entry, with the message that asks for a JSON definition. *)
Theorem get_parameters_failures function_json e :
  get_parameters function_json = Raises e ->
  function_json = Raises e \/
  exists items,
    function_json = Returns items /\
    py_truthy (py_get items "parameters") = false /\
    exc_class e = ExceptionC /\
    exc_str e
    = lit "Failed to infere parameters, please define JSON instead of using this automated util.".
Proof.
  unfold get_parameters. destruct function_json as [items|e']; [|intros [= ->]; by left].
  destruct (py_truthy (py_get items "parameters")) eqn:E; [done|].
  cbn. intros H. right. exists items. apply Raises_inj in H. subst e. done.
Qed.
End Describing.

Section Frames.
Context {W : Type} (co : Collaborators W).
Variable video_id : pystr.
Implicit Types (s : State W).

(** X26: the two acquisition procedures write to the action log and to
    nothing else of the session: the content objects, the content list
    and the binding of text_content are as before, and the action log is
    only appended to. *)
Theorem acquisition_leaves_content_alone s :
  let s1 := snd (_get_transcript co video_id s) in
  let s2 := snd (_get_scenes co video_id s) in
  (heap s1 = heap s /\ om_content s1 = om_content s /\
   local_text_content s1 = local_text_content s /\
   exists notes, om_actions s1 = om_actions s ++ notes) /\
  (heap s2 = heap s /\ om_content s2 = om_content s /\
   local_text_content s2 = local_text_content s /\
   exists notes, om_actions s2 = om_actions s ++ notes).
Proof.
  cbn zeta. split.
  - pose proof (_get_transcript_behaves co video_id s) as Hb.
    apply transcript_behaviour_extends in Hb as (w & acts & evs & -> & _).
    do 3 (split; [reflexivity|]). by exists acts.
  - pose proof (_get_scenes_behaves co video_id s) as Hb.
    apply scenes_behaviour_extends in Hb as (w & acts & evs & -> & _).
    do 3 (split; [reflexivity|]). by exists acts.
Qed.
End Frames.

(** ** The further properties on examples *)

(** X2 on the scenario in which every collaborator is called: the transcript
    is there only after indexing and the scene index only after creation. *)
Lemma stages_run_in_order_witness :
  ((0 < indexing_calls (calls (events_of long_way)))%nat /\
   (0 < creation_calls (calls (events_of long_way)))%nat /\
   (0 < scene_calls (calls (events_of long_way)))%nat /\
   (0 < chat_calls (calls (events_of long_way)))%nat) /\
  (exists e rest, transcript_fetches (events_of long_way) = Raises e :: rest) /\
  scene_listings (events_of long_way) = [Returns []] /\
  (exists ix, scene_creations (events_of long_way) = [Returns (Some ix)]) /\
  (exists l, scene_listings (events_of long_way) = [Returns l]).
Proof.
  assert ((0 < indexing_calls (calls (events_of long_way)))%nat) as H1
      by (vm_compute; lia).
  assert ((0 < creation_calls (calls (events_of long_way)))%nat) as H2
      by (vm_compute; lia).
  assert ((0 < scene_calls (calls (events_of long_way)))%nat) as H3
      by (vm_compute; lia).
  assert ((0 < chat_calls (calls (events_of long_way)))%nat) as H4
      by (vm_compute; lia).
  split; [by repeat split|].
  pose proof (stages_run_in_order scripted sample_runtime (lit "v1") (lit "c1") (lit "punchy")
                (fresh long_way)) as H.
  cbn zeta in H. destruct H as (_ & _ & G3 & _ & G5 & G6 & G7 & _).
  split; [exact (G3 H1)|]. split; [exact (G5 H2)|].
  split.
  - destruct (G6 H3) as [(first & rest & Hl)|Hc]; [|exact Hc].
    rewrite (G5 H2) in Hl. discriminate Hl.
  - exact (proj1 (G7 H4)).
Defined.

(** X7 on the scenario in which no scene index is listed and creating one
    raises. *)
Lemma empty_listing_never_raises_witness :
  list_scene_index scripted (lit "v1") (world (fresh creation_fails))
  = (Returns [], creation_fails) /\
  exists sc rc,
    fst (_get_scenes scripted (lit "v1") (fresh creation_fails)) = Returns sc /\
    scene_creations
      (new_events (fresh creation_fails)
         (snd (_get_scenes scripted (lit "v1") (fresh creation_fails))))
    = [rc].
Proof.
  assert (list_scene_index scripted (lit "v1") (world (fresh creation_fails))
          = (Returns [], creation_fails)) as H1 by reflexivity.
  split; [exact H1|].
  pose proof (empty_listing_never_raises scripted (lit "v1") (fresh creation_fails)
                creation_fails H1) as H.
  cbn zeta in H. destruct H as (sc & rc & Hsc & Hrc & _).
  exists sc, rc. split; assumption.
Defined.

(** X8 on the scenario in which a scene index is listed. *)
Lemma listed_index_is_used_witness :
  list_scene_index scripted (lit "v1") (world (fresh all_fine))
  = (Returns [mkRef (lit "idx-1")], all_fine) /\
  scene_creations
    (new_events (fresh all_fine) (snd (_get_scenes scripted (lit "v1") (fresh all_fine))))
  = [].
Proof.
  assert (list_scene_index scripted (lit "v1") (world (fresh all_fine))
          = (Returns [mkRef (lit "idx-1")], all_fine)) as H1 by reflexivity.
  split; [exact H1|].
  pose proof (listed_index_is_used scripted (lit "v1") (fresh all_fine)
                (mkRef (lit "idx-1")) [] all_fine H1) as H.
  cbn zeta in H. exact (proj1 H).
Defined.

(** X9 on the scenario in which the transcript is not there even after
    indexing. *)
Lemma transcript_failure_is_the_last_one_witness :
  fst (_get_transcript scripted (lit "v1") (fresh no_transcript))
  = Raises (unavailable "still no transcript") /\
  exists e1,
    transcript_fetches
      (new_events (fresh no_transcript)
         (snd (_get_transcript scripted (lit "v1") (fresh no_transcript))))
    = [Raises e1; Raises (unavailable "still no transcript")].
Proof.
  assert (fst (_get_transcript scripted (lit "v1") (fresh no_transcript))
          = Raises (unavailable "still no transcript")) as H1 by (vm_compute; reflexivity).
  split; [exact H1|].
  pose proof (transcript_failure_is_the_last_one scripted (lit "v1") (fresh no_transcript)
                (unavailable "still no transcript")) as H.
  cbn zeta in H. destruct (H H1) as (e1 & [[_ Hi]|[Hf _]]).
  - vm_compute in Hi. discriminate Hi.
  - exists e1. exact Hf.
Defined.

(** X11 on a session that holds a content object already. *)
Lemma run_keeps_earlier_content_witness :
  (0 < length (heap drafted))%nat /\
  heap (snd (run scripted sample_runtime (lit "v1") (lit "c1") (lit "punchy") drafted)) !! 0%nat
  = heap drafted !! 0%nat.
Proof.
  assert ((0 < length (heap drafted))%nat) as H1 by (vm_compute; lia).
  split; [exact H1|].
  pose proof (run_keeps_earlier_content scripted sample_runtime
                (lit "v1") (lit "c1") (lit "punchy") drafted) as H.
  cbn zeta in H. exact (proj1 H 0%nat H1).
Defined.

(** X12 on the scenario in which everything works. *)
Lemma success_publishes_the_returned_template_witness :
  exists resp template final,
    response_of all_fine = Returns resp /\ status resp = SUCCESS /\
    data resp = {[ lit "template" := PyStr template ]} /\
    terminals (events_of all_fine) = [final] /\
    tc_text <$> own_content final = Some template.
Proof.
  assert (exists resp, response_of all_fine = Returns resp /\ status resp = SUCCESS)
    as (resp & H1 & H2) by (eexists; split; vm_compute; reflexivity).
  pose proof (success_publishes_the_returned_template scripted sample_runtime
                (lit "v1") (lit "c1") (lit "punchy") (fresh all_fine) resp) as H.
  cbn zeta in H. destruct (H H1 H2) as (template & final & Hd & _ & Ht & Ho & _).
  exists resp, template, final. do 4 (split; [assumption|]).
  rewrite Ho. reflexivity.
Defined.

(** X13 on the scenario in which everything works: the status and the
    data agree. *)
Lemma template_entry_iff_success_witness :
  exists resp,
    response_of all_fine = Returns resp /\ status resp = SUCCESS /\
    is_Some (data resp !! lit "template").
Proof.
  destruct (template_entry_iff_success scripted sample_runtime
              (lit "v1") (lit "c1") (lit "punchy") (fresh all_fine))
    as (resp & H1 & H2 & _).
  assert (status resp = SUCCESS) as H3.
  { assert (exists resp', response_of all_fine = Returns resp' /\ status resp' = SUCCESS)
      as (resp' & H1' & H2') by (eexists; split; vm_compute; reflexivity).
    rewrite H1 in H1'. apply Returns_inj in H1'. by subst resp'. }
  exists resp. split; [exact H1|]. split; [exact H3|]. exact (proj1 H2 H3).
Defined.

(** X14 on the scenario in which the LLM answers with no visuals. *)
Lemma response_follows_the_reply_witness :
  In ([mkMsg user (llm_prompt sample_runtime (lit "punchy")
                     (lit "Welcome back to the show.") (Some scenes3))],
      Returns (mkLLMResponse true bare_reply_text))
     (chats (events_of no_visuals)) /\
  exists template,
    response_of no_visuals = Returns (success_response template).
Proof.
  assert (In ([mkMsg user (llm_prompt sample_runtime (lit "punchy")
                             (lit "Welcome back to the show.") (Some scenes3))],
              Returns (mkLLMResponse true bare_reply_text))
             (chats (events_of no_visuals))) as H1 by (vm_compute; left; reflexivity).
  split; [exact H1|].
  pose proof (response_follows_the_reply scripted sample_runtime
                (lit "v1") (lit "c1") (lit "punchy") (fresh no_visuals)
                [mkMsg user (llm_prompt sample_runtime (lit "punchy")
                               (lit "Welcome back to the show.") (Some scenes3))]
                (Returns (mkLLMResponse true bare_reply_text)) H1) as H.
  eexists. rewrite H. vm_compute. reflexivity.
Defined.

(** X15 on the first flush of the scenario in which everything works. *)
Lemma flushes_show_no_text_witness :
  In (Progress (mkSnapshot [] [initial_content])) (sink (events_of all_fine)) /\
  tc_text <$> own_content (mkSnapshot [] [initial_content]) = Some [].
Proof.
  assert (In (Progress (mkSnapshot [] [initial_content])) (sink (events_of all_fine))) as H1
      by (vm_compute; left; reflexivity).
  split; [exact H1|].
  pose proof (flushes_show_no_text scripted sample_runtime (lit "v1") (lit "c1") (lit "punchy")
                (fresh all_fine) (mkSnapshot [] [initial_content]) H1) as H.
  rewrite H. reflexivity.
Defined.

(** X16 on a dict with six keys and text for its visuals, which renders,
    and on a dict with no 'music', which does not. *)
Lemma rendering_returns_iff_witness :
  (exists template,
      render_template sample_runtime (PyDict spelled_fields) (fresh all_fine)
      = (Returns template, fresh all_fine)) /\
  ~ (exists template,
        render_template sample_runtime reply_without_music (fresh all_fine)
        = (Returns template, fresh all_fine)).
Proof.
  split.
  - apply (proj2 (rendering_returns_iff sample_runtime (PyDict spelled_fields)
                    (fresh all_fine))).
    exists spelled_fields, (PyStr (lit "ab")).
    split; [reflexivity|]. split; [|split; reflexivity].
    unfold template_fields.
    repeat (apply Forall_cons; split; [vm_compute; by eexists|]). apply Forall_nil_2.
  - intros H.
    apply (proj1 (rendering_returns_iff sample_runtime reply_without_music
                    (fresh all_fine))) in H.
    destruct H as (items & visuals & [= <-] & Hall & _).
    unfold template_fields in Hall.
    do 3 apply Forall_cons in Hall as [_ Hall].
    apply Forall_cons in Hall as [[v Hv] _]. vm_compute in Hv. discriminate Hv.
Defined.

(** X17 on the dict with no 'music'. *)
Lemma rendering_failures_witness :
  fst (render_template sample_runtime reply_without_music (fresh all_fine))
  = Raises (mkExc KeyErrorC (lit "'music'")) /\
  exists before after,
    template_fields = before ++ "music"%string :: after.
Proof.
  assert (fst (render_template sample_runtime reply_without_music (fresh all_fine))
          = Raises (mkExc KeyErrorC (lit "'music'"))) as H1 by (vm_compute; reflexivity).
  split; [exact H1|].
  pose proof (rendering_failures sample_runtime reply_without_music (fresh all_fine)
                (mkExc KeyErrorC (lit "'music'")) H1) as H.
  cbn beta iota in H.
  destruct H as [(before & key & after & Hf & _ & _ & He)|(v & _ & _ & _ & He)];
    [|discriminate He].
  exists ["script"; "visuals"; "transitions"]%string, ["sound_effects"; "pacing"]%string.
  reflexivity.
Defined.

(** X18 on six fields, and on the same in another order and among
    others. *)
Lemma rendering_reads_six_fields_witness :
  Forall (fun key => dict_get (lit key) spelled_fields = dict_get (lit key) shuffled_fields)
         template_fields /\
  render_template sample_runtime (PyDict spelled_fields) (fresh all_fine)
  = render_template sample_runtime (PyDict shuffled_fields) (fresh all_fine).
Proof.
  assert (Forall (fun key => dict_get (lit key) spelled_fields
                             = dict_get (lit key) shuffled_fields) template_fields) as H1.
  { unfold template_fields.
    repeat (apply Forall_cons; split; [vm_compute; reflexivity|]). apply Forall_nil_2. }
  split; [exact H1|].
  exact (rendering_reads_six_fields sample_runtime spelled_fields shuffled_fields
           (fresh all_fine) H1).
Defined.

(** X19 on visuals given as the text 'ab': a bullet for 'a' and one for
    'b'. *)
Lemma visuals_need_not_be_a_list_witness :
  dict_get (lit "visuals") spelled_fields = Some (PyStr (lit "ab")) /\
  exists template script transitions music sound_effects pacing,
    render_template sample_runtime (PyDict spelled_fields) (fresh all_fine)
    = (Returns template, fresh all_fine) /\
    template
    = leading ++
      layout script [lit "- a"; lit "- b"] transitions music sound_effects pacing ++
      trailing.
Proof.
  assert (dict_get (lit "visuals") spelled_fields = Some (PyStr (lit "ab"))) as H2
      by (vm_compute; reflexivity).
  split; [exact H2|].
  assert (exists template,
             render_template sample_runtime (PyDict spelled_fields) (fresh all_fine)
             = (Returns template, fresh all_fine)) as (template & H1)
      by (eexists; vm_compute; reflexivity).
  destruct (visuals_need_not_be_a_list sample_runtime spelled_fields (fresh all_fine)
              template (PyStr (lit "ab")) H1 H2)
    as (script & transitions & music & sound_effects & pacing & H).
  exists template, script, transitions, music, sound_effects, pacing.
  split; [exact H1|exact H].
Defined.

(** X22 on two transcripts that differ after their first 1000 characters,
    and scenes that differ after the first five. *)
Lemma prompt_reads_bounded_inputs_witness :
  long_transcript (lit "x") <> long_transcript (lit "y") /\
  take 1000 (long_transcript (lit "x")) = take 1000 (long_transcript (lit "y")) /\
  first_descriptions (Some six_scenes) = first_descriptions (Some other_six_scenes) /\
  llm_prompt sample_runtime (lit "punchy") (long_transcript (lit "x")) (Some six_scenes)
  = llm_prompt sample_runtime (lit "punchy") (long_transcript (lit "y"))
      (Some other_six_scenes).
Proof.
  assert (take 1000 (long_transcript (lit "x")) = take 1000 (long_transcript (lit "y")))
    as H1 by (vm_compute; reflexivity).
  assert (first_descriptions (Some six_scenes) = first_descriptions (Some other_six_scenes))
    as H2 by (vm_compute; reflexivity).
  split.
  { intros H. apply (f_equal (drop 1000)) in H. vm_compute in H. discriminate H. }
  do 2 (split; [assumption|]).
  exact (prompt_reads_bounded_inputs sample_runtime (lit "punchy")
           (long_transcript (lit "x")) (long_transcript (lit "y"))
           (Some six_scenes) (Some other_six_scenes) H1 H2).
Defined.

(** X24 on a schema with parameters, and on one whose parameters are
    empty. *)
Lemma get_parameters_returns_iff_witness :
  get_parameters (Returns inferred_schema)
  = Returns (PyDict [(lit "type", PyStr (lit "object"))]) /\
  get_parameters (Returns bare_schema) <> Returns (PyDict []).
Proof.
  split.
  - apply (proj2 (get_parameters_returns_iff (Returns inferred_schema)
                    (PyDict [(lit "type", PyStr (lit "object"))]))).
    exists inferred_schema. split; [reflexivity|]. split; vm_compute; reflexivity.
  - intros H.
    apply (proj1 (get_parameters_returns_iff (Returns bare_schema) (PyDict []))) in H.
    destruct H as (_ & _ & _ & H). discriminate H.
Defined.

(** X25 on the schema whose parameters are empty. *)
Lemma get_parameters_failures_witness :
  get_parameters (Returns bare_schema) = Raises inference_failure /\
  py_truthy (py_get bare_schema "parameters") = false.
Proof.
  assert (get_parameters (Returns bare_schema) = Raises inference_failure) as H1
      by (vm_compute; reflexivity).
  split; [exact H1|].
  destruct (get_parameters_failures (Returns bare_schema) inference_failure H1)
    as [H|(items & Hi & Ht & _)]; [discriminate H|].
  apply Returns_inj in Hi. by subst items.
Defined.
